(** * cropLetter: the image cropping service of [main.py]

    A shallow embedding of the handler [crop_image] (POST /crop-image/) and
    of what it calls: the checks on the declared content type, the
    resolution of the split row, the two crops, the zip archive and the
    reply the framework sends.  Python's exceptions are an error monad,
    Python's [int] is [Z], Python's [float] is IEEE 754 binary64 as
    [SpecFloat] specifies it, [bytes] is [list byte]. *)

From Stdlib Require Import ZArith List String Ascii Bool Lia.
From Stdlib Require Import Floats.SpecFloat.
From Stdlib Require Import DecimalString.
Import ListNotations.

Local Open Scope string_scope.
Local Open Scope Z_scope.

(** ** Exceptions *)

(** [HTTPException(status_code=..., detail=...)] of the framework, and every
    other exception the handler can meet (its class name and its message). *)
Inductive exn : Type :=
| HTTPException (status_code : Z) (detail : string)
| PyError (cls : string) (msg : string).

Inductive result (A : Type) : Type :=
| Ok (a : A)
| Raise (e : exn).

Arguments Ok {A} a.
Arguments Raise {A} e.

Definition bind {A B : Type} (m : result A) (k : A -> result B) : result B :=
  match m with
  | Ok a => k a
  | Raise e => Raise e
  end.

Notation "x <- m ;; k" := (bind m (fun x => k))
  (at level 61, m at next level, right associativity).
Notation "' pat <- m ;; k" := (bind m (fun x => let pat := x in k))
  (at level 61, pat pattern, m at next level, right associativity).

(** [try: body / except Exception as e: handler e]. *)
Definition try_except {A : Type} (body : result A) (handler : exn -> result A)
  : result A :=
  match body with
  | Ok a => Ok a
  | Raise e => handler e
  end.

(** ** Strings *)

(** [str(n)] of an [int]. *)
Definition str_int (n : Z) : string := NilZero.string_of_int (Z.to_int n).

(** [s.startswith(p)]. *)
Definition startswith (s p : string) : bool := String.prefix p s.

(** [s in l] for a list of strings. *)
Definition str_in (s : string) (l : list string) : bool :=
  existsb (String.eqb s) l.

Definition lower_ascii (c : ascii) : ascii :=
  let n := nat_of_ascii c in
  if ((65 <=? n)%nat && (n <=? 90)%nat)%bool then ascii_of_nat (n + 32) else c.

(** [s.lower()], on ASCII letters. *)
Fixpoint lower (s : string) : string :=
  match s with
  | EmptyString => EmptyString
  | String c s' => String (lower_ascii c) (lower s')
  end.

(** [s.rfind(c)] from position [i], [last] being the best index so far. *)
Fixpoint rfind_from (c : ascii) (s : string) (i last : Z) : Z :=
  match s with
  | EmptyString => last
  | String d s' => rfind_from c s' (i + 1) (if Ascii.eqb c d then i else last)
  end.

Definition rfind (c : ascii) (s : string) : Z := rfind_from c s 0 (-1).

(** [s[i:j]] for [0 <= i]. *)
Definition slice (s : string) (i j : Z) : string :=
  String.substring (Z.to_nat i) (Z.to_nat (j - i)) s.

(** The loop of [genericpath._splitext]: is some character of
    [p[filenameIndex:dotIndex]] not a dot? *)
Fixpoint has_non_dot (p : string) (filenameIndex : Z) (n : nat) : bool :=
  match n with
  | O => false
  | S n' =>
      match String.get (Z.to_nat filenameIndex) p with
      | Some c => if Ascii.eqb c "."%char then has_non_dot p (filenameIndex + 1) n'
                  else true
      | None => false
      end
  end.

(** [os.path.splitext(p)[0]] (posixpath). *)
Definition splitext_root (p : string) : string :=
  let sepIndex := rfind "/"%char p in
  let dotIndex := rfind "."%char p in
  if (sepIndex <? dotIndex)
  then if has_non_dot p (sepIndex + 1) (Z.to_nat (dotIndex - (sepIndex + 1)))
       then slice p 0 dotIndex
       else p
  else p.

(** A Python [str] is kept as its UTF-8 bytes; these are its code points. *)
Definition byte_Z (c : ascii) : Z := Z.of_nat (nat_of_ascii c).

Fixpoint code_points (s : string) : list Z :=
  match s with
  | EmptyString => []
  | String b s1 =>
      let n := byte_Z b in
      if n <? 128 then n :: code_points s1
      else if n <? 224 then
        match s1 with
        | String b1 s2 =>
            (n mod 32 * 64 + byte_Z b1 mod 64) :: code_points s2
        | _ => [n]
        end
      else if n <? 240 then
        match s1 with
        | String b1 (String b2 s3) =>
            (n mod 16 * 4096 + byte_Z b1 mod 64 * 64 + byte_Z b2 mod 64)
              :: code_points s3
        | _ => [n]
        end
      else
        match s1 with
        | String b1 (String b2 (String b3 s4)) =>
            (n mod 8 * 262144 + byte_Z b1 mod 64 * 4096
             + byte_Z b2 mod 64 * 64 + byte_Z b3 mod 64) :: code_points s4
        | _ => [n]
        end
  end.

Definition hex_digit (n : Z) : ascii :=
  match String.get (Z.to_nat n) "0123456789abcdef" with
  | Some c => c
  | None => "0"%char
  end.

(** [n] in hexadecimal on [width] digits. *)
Fixpoint hex_pad (width : nat) (n : Z) : string :=
  match width with
  | O => EmptyString
  | S w => hex_pad w (n / 16) ++ String (hex_digit (n mod 16)) EmptyString
  end.

(** The end of the run of code points from 256 up that starts a list. *)
Fixpoint run_end (cps : list Z) (i : Z) : Z :=
  match cps with
  | c :: rest => if 256 <=? c then run_end rest (i + 1) else i
  | [] => i
  end.

(** [str(e)] of the [UnicodeEncodeError] of [s.encode("latin-1")], when
    there is one: it names the first run of characters from 256 up. *)
Fixpoint latin1_error (cps : list Z) (i : Z) : option string :=
  match cps with
  | [] => None
  | c :: rest =>
      if 256 <=? c then
        let stop := run_end rest (i + 1) in
        Some (if stop =? i + 1
              then "'latin-1' codec can't encode character '"
                   ++ (if c <=? 65535 then "\u" ++ hex_pad 4 c
                       else "\U" ++ hex_pad 8 c)
                   ++ "' in position " ++ str_int i
                   ++ ": ordinal not in range(256)"
              else "'latin-1' codec can't encode characters in position "
                   ++ str_int i ++ "-" ++ str_int (stop - 1)
                   ++ ": ordinal not in range(256)")
      else latin1_error rest (i + 1)
  end.

(** [s.encode("latin-1")], the bytes as numbers. *)
Definition encode_latin1 (s : string) : result (list Z) :=
  match latin1_error (code_points s) 0 with
  | Some msg => Raise (PyError "UnicodeEncodeError" msg)
  | None => Ok (code_points s)
  end.

(** ** Floats

    A Python [float] is an IEEE 754 binary64 number.  [split_percentage]
    arrives as one (NaN and the infinities included). *)

Definition prec : Z := 53.
Definition emax : Z := 1024.

Definition float : Type := spec_float.

Definition float_0_0 : float := S754_zero false.
Definition float_1_0 : float := S754_finite false 4503599627370496 (-52).

(** [x < y] and [x > y] on floats: false as soon as one side is NaN. *)
Definition float_lt (x y : float) : bool := SFltb x y.
Definition float_gt (x y : float) : bool := SFltb y x.

(** The conversion of the [int] operand of [int * float]: rounded to the
    nearest float, [OverflowError] past the largest one. *)
Definition float_of_int (n : Z) : result float :=
  match binary_normalize prec emax n 0 false with
  | S754_infinity _ =>
      Raise (PyError "OverflowError" "int too large to convert to float")
  | f => Ok f
  end.

(** [n * x] for an [int] [n] and a [float] [x]. *)
Definition int_mul_float (n : Z) (x : float) : result float :=
  f <- float_of_int n ;;
  Ok (SFmul prec emax f x).

(** [int(x)]: truncation toward zero. *)
Definition int_of_float (x : float) : result Z :=
  match x with
  | S754_zero _ => Ok 0
  | S754_finite s m e => Ok (cond_Zopp s (Z.shiftl (Zpos m) e))
  | S754_infinity _ =>
      Raise (PyError "OverflowError" "cannot convert float infinity to integer")
  | S754_nan =>
      Raise (PyError "ValueError" "cannot convert float NaN to integer")
  end.

(** The floor of the number a float stands for, [(-1)^s * m * 2^e]; none
    for NaN and the infinities. *)
Definition float_floor (x : float) : option Z :=
  match x with
  | S754_zero _ => Some 0
  | S754_finite s m e => Some (Z.shiftl (cond_Zopp s (Zpos m)) e)
  | S754_infinity _ | S754_nan => None
  end.

(** ** Images (PIL) *)

Definition pixel : Type := Z.

(** An opened image: its [size] is [(width, height)]; [load] is the pixel
    access, or the exception that loading the pixel data raises
    ([Image.open] reads the header only, the data is read on first use). *)
Record Image : Type := mkImage {
  size : Z * Z;
  mode : string;
  load : result (Z -> Z -> pixel)
}.

(** [image.crop((x0, y0, x1, y1))], the box being (left, upper, right,
    lower): the rectangle, column [x1] and row [y1] excluded; what lies outside the source is 0. *)
Definition crop (image : Image) (box : Z * Z * Z * Z) : result Image :=
  let '(x0, y0, x1, y1) := box in
  if x1 <? x0
  then Raise (PyError "ValueError" "Coordinate 'right' is less than 'left'")
  else if y1 <? y0
  then Raise (PyError "ValueError" "Coordinate 'lower' is less than 'upper'")
  else
    px <- load image ;;
    Ok {| size := (x1 - x0, y1 - y0);
          mode := mode image;
          load := Ok (fun x y =>
                    let sx := x + x0 in
                    let sy := y + y0 in
                    if ((0 <=? sx) && (sx <? fst (size image)) &&
                        (0 <=? sy) && (sy <? snd (size image)))%bool
                    then px sx sy else 0) |}.

(** ** The upload, the archive and the response *)

Record UploadFile : Type := mkUploadFile {
  filename : option string;
  content_type : option string;
  read : list Byte.byte
}.

Definition ZIP_DEFLATED : Z := 8.

(** An entry of the archive; [date_time] is the clock's reading when the
    entry was written. *)
Record ZipInfo : Type := mkZipInfo {
  zi_filename : string;
  date_time : Z;
  compress_type : Z;
  zi_data : list Byte.byte
}.

(** [zipfile.ZipFile(buffer, 'w', compression)]: the entries written so
    far, in order, and how many times the clock has been read. *)
Record ZipFile : Type := mkZipFile {
  compression : Z;
  filelist : list ZipInfo;
  ticks : nat
}.

(** [zip_file.writestr(name, data)]; [now k] is the [k]-th reading of the
    clock. *)
Definition writestr (now : nat -> Z) (zip_file : ZipFile) (name : string)
  (data : list Byte.byte) : ZipFile :=
  {| compression := compression zip_file;
     filelist := filelist zip_file ++
       [ {| zi_filename := name; date_time := now (ticks zip_file);
            compress_type := compression zip_file; zi_data := data |} ];
     ticks := S (ticks zip_file) |}.

Record StreamingResponse : Type := mkStreamingResponse {
  content : list ZipInfo;
  media_type : string;
  headers : list (string * string)
}.

(** The response's [init_headers]: every header, its name lower-cased, is
    encoded as Latin-1. *)
Fixpoint init_headers (headers : list (string * string))
  : result (list (list Z * list Z)) :=
  match headers with
  | [] => Ok []
  | (k, v) :: rest =>
      raw_k <- encode_latin1 (lower k) ;;
      raw_v <- encode_latin1 v ;;
      raw_rest <- init_headers rest ;;
      Ok ((raw_k, raw_v) :: raw_rest)
  end.

(** ** The handler [crop_image] *)

Definition msg_not_image : string := "El archivo debe ser una imagen".
Definition msg_not_png_jpg : string := "Solo se permiten archivos PNG y JPG".
Definition msg_split_point (height : Z) : string :=
  "El punto de división debe estar entre 0 y " ++ str_int (height - 1)
  ++ " píxeles".
Definition msg_split_percentage : string :=
  "El porcentaje debe estar entre 0.0 y 1.0".
Definition msg_division : string :=
  "El punto de división no permite crear dos imágenes válidas".
Definition msg_processing (s : string) : string :=
  "Error procesando la imagen: " ++ s.

(** Lines 29-33: the two checks on the declared content type.  A part sent
    without a Content-Type header has [content_type = None], on which
    [.startswith] raises. *)
Definition check_content_type (file : UploadFile) : result string :=
  match content_type file with
  | None =>
      Raise (PyError "AttributeError"
               "'NoneType' object has no attribute 'startswith'")
  | Some ct =>
      if negb (startswith ct "image/")
      then Raise (HTTPException 400 msg_not_image)
      else if negb (str_in ct ["image/png"; "image/jpeg"; "image/jpg"])
      then Raise (HTTPException 400 msg_not_png_jpg)
      else Ok ct
  end.

(** Lines 44-60: the split row [division_y]. *)
Definition division_y (height : Z) (split_point : option Z)
  (split_percentage : option float) : result Z :=
  match split_point with
  | Some split_point =>
      if (split_point <? 0) || (split_point >=? height)
      then Raise (HTTPException 400 (msg_split_point height))
      else Ok split_point
  | None =>
      match split_percentage with
      | Some split_percentage =>
          if float_lt split_percentage float_0_0
             || float_gt split_percentage float_1_0
          then Raise (HTTPException 400 msg_split_percentage)
          else
            product <- int_mul_float height split_percentage ;;
            int_of_float product
      | None => Ok (height / 2)
      end
  end.

(** Lines 63-67: the split must leave two images. *)
Definition check_division (division_y height : Z) : result unit :=
  if (division_y <=? 0) || (division_y >=? height)
  then Raise (HTTPException 400 msg_division)
  else Ok tt.

(** Line 83. *)
Definition format_name (ct : string) : string :=
  if String.eqb ct "image/png" then "PNG" else "JPEG".

(** Lines 95-96. *)
Definition zip_filename (file : UploadFile) : string :=
  let original_name :=
    match filename file with
    | None | Some EmptyString => "image"
    | Some name => splitext_root name
    end in
  original_name ++ "_cropped.zip".

(** What the handler takes from its libraries: [Image.open(io.BytesIO(data))]
    and [image.save(buffer, format=...)] followed by [buffer.getvalue()], of
    PIL, and [str(e)] of an exception. *)
Class Runtime : Type := {
  Image_open : list Byte.byte -> result Image;
  Image_save : Image -> string -> result (list Byte.byte);
  str_exn : exn -> string
}.

(** What the framework sends for a call of the handler. *)
Inductive reply_body : Type :=
| Archive (r : StreamingResponse)
| JsonDetail (detail : string)
| PlainText (text : string).

Section Handler.

Context {runtime : Runtime}.

(** Lines 79-90: the archive with its two entries. *)
Definition write_zip (now : nat -> Z) (ct : string)
  (image_header image_body : Image) : result ZipFile :=
  let zip_file := mkZipFile ZIP_DEFLATED [] 0 in
  let format_name := format_name ct in
  header_buffer <- Image_save image_header format_name ;;
  let zip_file :=
    writestr now zip_file ("image_header." ++ lower format_name)
      header_buffer in
  body_buffer <- Image_save image_body format_name ;;
  let zip_file :=
    writestr now zip_file ("image_body." ++ lower format_name)
      body_buffer in
  Ok zip_file.

(** Lines 36-102: the body of the [try]; [ct] is [file.content_type], which
    the checks before the [try] have accepted.  Building the response
    (lines 98-102) encodes its headers, which raises for a file name with
    a character outside Latin-1. *)
Definition crop_image_try (now : nat -> Z) (file : UploadFile) (ct : string)
  (split_point : option Z) (split_percentage : option float)
  : result StreamingResponse :=
  let image_data := read file in
  image <- Image_open image_data ;;
  let '(width, height) := size image in
  y <- division_y height split_point split_percentage ;;
  _ <- check_division y height ;;
  image_header <- crop image (0, 0, width, y) ;;
  image_body <- crop image (0, y, width, height) ;;
  zip_file <- write_zip now ct image_header image_body ;;
  let headers := [("Content-Disposition",
                   "attachment; filename=" ++ zip_filename file)] in
  _ <- init_headers headers ;;
  Ok {| content := filelist zip_file;
        media_type := "application/zip";
        headers := headers |}.

(** The handler: the content-type checks, then the [try] whose [except
    Exception] turns whatever was raised inside it, the handler's own
    [HTTPException]s included, into a 500. *)
Definition crop_image (now : nat -> Z) (file : UploadFile)
  (split_point : option Z) (split_percentage : option float)
  : result StreamingResponse :=
  ct <- check_content_type file ;;
  try_except (crop_image_try now file ct split_point split_percentage)
    (fun e => Raise (HTTPException 500 (msg_processing (str_exn e)))).

(** The reply to a request: the response, the [HTTPException]'s status and
    detail as JSON, or the framework's own 500 for any other exception. *)
Definition post_crop_image (now : nat -> Z) (file : UploadFile)
  (split_point : option Z) (split_percentage : option float)
  : Z * reply_body :=
  match crop_image now file split_point split_percentage with
  | Ok r => (200, Archive r)
  | Raise (HTTPException status_code detail) =>
      (status_code, JsonDetail detail)
  | Raise (PyError _ _) => (500, PlainText "Internal Server Error")
  end.

End Handler.

(** [str(e)]: the message of a Python exception; for [HTTPException],
    Starlette's [__str__]. *)
Definition str_exception (e : exn) : string :=
  match e with
  | HTTPException status_code detail => str_int status_code ++ ": " ++ detail
  | PyError _ msg => msg
  end.

(** ** A raw raster codec

    A small instance of the two PIL operations, to run the handler on
    concrete uploads: the payload is the width, the height, then one byte
    per pixel, row by row; the format's initial letter leads the output. *)

Definition byte_of_Z (z : Z) : Byte.byte :=
  match Byte.of_N (Z.to_N (z mod 256)) with
  | Some b => b
  | None => Byte.x00
  end.

Definition Z_of_byte (b : Byte.byte) : Z := Z.of_N (Byte.to_N b).

Definition raw_open (data : list Byte.byte) : result Image :=
  match data with
  | w :: h :: pixels =>
      let width := Z_of_byte w in
      let height := Z_of_byte h in
      Ok {| size := (width, height);
            mode := "L";
            load :=
              if (Z.of_nat (List.length pixels) <? width * height)
              then Raise (PyError "OSError" "image file is truncated")
              else Ok (fun x y =>
                     Z_of_byte (nth (Z.to_nat (y * width + x)) pixels Byte.x00)) |}
  | _ => Raise (PyError "UnidentifiedImageError" "cannot identify image file")
  end.

Definition raw_rows (px : Z -> Z -> pixel) (width height : Z) : list Byte.byte :=
  flat_map (fun y => map (fun x => byte_of_Z (px (Z.of_nat x) (Z.of_nat y)))
                         (seq 0 (Z.to_nat width)))
           (seq 0 (Z.to_nat height)).

Definition raw_save (image : Image) (format : string) : result (list Byte.byte) :=
  px <- load image ;;
  let tag := match format with
             | String c _ => Byte.of_bits (let '(Ascii a b c d e f g h) := c in
                                           (a, (b, (c, (d, (e, (f, (g, h))))))))
             | EmptyString => Byte.x00
             end in
  Ok (tag :: byte_of_Z (fst (size image)) :: byte_of_Z (snd (size image))
          :: raw_rows px (fst (size image)) (snd (size image))).

Definition raw_runtime : Runtime :=
  {| Image_open := raw_open; Image_save := raw_save; str_exn := str_exception |}.

(** A 2x3 image (pixels 1..6), declared as PNG. *)
Definition sample_png : UploadFile :=
  {| filename := Some "letter.png";
     content_type := Some "image/png";
     read := [Byte.x02; Byte.x03; Byte.x01; Byte.x02; Byte.x03; Byte.x04;
              Byte.x05; Byte.x06] |}.

(** A payload no decoder accepts. *)
Definition sample_garbage : UploadFile :=
  {| filename := Some "letter.png";
     content_type := Some "image/png";
     read := [Byte.xff] |}.

Definition float_7_5 : float := S754_finite false 8444249301319680 (-50).
(** The float nearest to 1/3. *)
Definition float_third : float := S754_finite false 6004799503160661 (-54).
Definition float_0_5 : float := S754_finite false 4503599627370496 (-53).

Definition clock_a : nat -> Z := fun k => 1000 + Z.of_nat k.
Definition clock_b : nat -> Z := fun k => 2000 + 2 * Z.of_nat k.

(** An upload of one row, for the images that cannot be split. *)
Definition sample_row : UploadFile :=
  {| filename := None;
     content_type := Some "image/jpeg";
     read := [Byte.x02; Byte.x01; Byte.x07; Byte.x08] |}.

(** A 2x2 image declared as [image/jpg]. *)
Definition sample_jpg : UploadFile :=
  {| filename := Some "scan.JPG";
     content_type := Some "image/jpg";
     read := [Byte.x02; Byte.x02; Byte.x09; Byte.x08; Byte.x07; Byte.x06] |}.

(** A 2x3 image whose pixel data stops after two pixels. *)
Definition sample_truncated : UploadFile :=
  {| filename := Some "letter.png";
     content_type := Some "image/png";
     read := [Byte.x02; Byte.x03; Byte.x01; Byte.x02] |}.


(** ** Notions for the statements *)

(** A float that is not a negative number. *)
Definition not_negative (x : float) : Prop :=
  match x with
  | S754_finite true _ _ => False
  | _ => True
  end.

(** The names and the payloads of an archive's entries. *)
Definition archive_contents (entries : list ZipInfo)
  : list (string * list Byte.byte) :=
  map (fun entry => (zi_filename entry, zi_data entry)) entries.

(** The two entries a run of [write_zip] leaves. *)
Definition two_entries (now : nat -> Z) (ct : string)
  (header_bytes body_bytes : list Byte.byte) : list ZipInfo :=
  [ mkZipInfo ("image_header." ++ lower (format_name ct)) (now 0%nat)
      ZIP_DEFLATED header_bytes;
    mkZipInfo ("image_body." ++ lower (format_name ct)) (now 1%nat)
      ZIP_DEFLATED body_bytes ].

(** What of an outcome does not depend on the clock. *)
Definition outcome_contents (outcome : result StreamingResponse)
  : result (list (string * list Byte.byte) * string * list (string * string)) :=
  r <- outcome ;;
  Ok (archive_contents (content r), media_type r, headers r).

(** A request whose [split_point] or [split_percentage] lies outside its
    range. *)
Definition out_of_range (height : Z) (split_point : option Z)
  (split_percentage : option float) : Prop :=
  (exists p, split_point = Some p /\ (p < 0 \/ height <= p)) \/
  (exists q, split_percentage = Some q /\
             (float_lt q float_0_0 = true \/ float_gt q float_1_0 = true)).

(** The floor of the exact product of [height] and the number the float
    [q] stands for, [(-1)^s * m * 2^e]. *)
Definition exact_floor (height : Z) (q : float) : option Z :=
  match q with
  | S754_zero _ => Some 0
  | S754_finite s m e => Some (Z.shiftl (height * cond_Zopp s (Zpos m)) e)
  | S754_infinity _ | S754_nan => None
  end.


Section Notions.

Context {runtime : Runtime}.

(** What a successful run went through. *)
Record success (now : nat -> Z) (file : UploadFile) (split_point : option Z)
  (split_percentage : option float) (response : StreamingResponse)
  (ct : string) (image : Image) (y : Z) (image_header image_body : Image)
  (header_bytes body_bytes : list Byte.byte) : Prop := {
  success_ct : content_type file = Some ct;
  success_accepted : ct = "image/png" \/ ct = "image/jpeg" \/ ct = "image/jpg";
  success_open : Image_open (read file) = Ok image;
  success_row : division_y (snd (size image)) split_point split_percentage = Ok y;
  success_bounds : 0 < y < snd (size image);
  success_header : crop image (0, 0, fst (size image), y) = Ok image_header;
  success_body :
    crop image (0, y, fst (size image), snd (size image)) = Ok image_body;
  success_header_bytes : Image_save image_header (format_name ct) = Ok header_bytes;
  success_body_bytes : Image_save image_body (format_name ct) = Ok body_bytes;
  success_headers :
    exists raw,
      init_headers [("Content-Disposition",
                     "attachment; filename=" ++ zip_filename file)] = Ok raw;
  success_response :
    response = {| content := two_entries now ct header_bytes body_bytes;
                  media_type := "application/zip";
                  headers := [("Content-Disposition",
                               "attachment; filename=" ++ zip_filename file)] |}
}.

End Notions.

(** * Properties *)

(** ** Strings *)

Example splitext_photo : splitext_root "photo.JPG" = "photo".
Proof. reflexivity. Qed.

Example splitext_hidden : splitext_root "dir.d/.bashrc" = "dir.d/.bashrc".
Proof. reflexivity. Qed.

Example lower_png : lower "PNG" = "png" /\ lower "JPEG" = "jpeg".
Proof. split; reflexivity. Qed.

Example startswith_image :
  startswith "image/png" "image/" = true /\
  startswith "text/plain" "image/" = false /\
  startswith "" "image/" = false.
Proof. repeat split; reflexivity. Qed.

Example str_int_49 : str_int 49 = "49" /\ str_int 0 = "0" /\ str_int (-1) = "-1".
Proof. repeat split; reflexivity. Qed.

Arguments crop : simpl never.
Arguments division_y : simpl never.
Arguments check_division : simpl never.
Arguments check_content_type : simpl never.
Arguments write_zip : simpl never.
Arguments zip_filename : simpl never.
Arguments format_name : simpl never.
Arguments init_headers : simpl never.
Arguments encode_latin1 : simpl never.

(** ** The error monad *)

Lemma bind_Ok_inv {A B : Type} (m : result A) (k : A -> result B) (b : B) :
  bind m k = Ok b -> exists a, m = Ok a /\ k a = Ok b.
Proof.
  destruct m as [a | e]; simpl; intros H.
  - exists a. split; [reflexivity | exact H].
  - discriminate H.
Qed.

Lemma bind_Ok {A B : Type} (m : result A) (k : A -> result B) (a : A) :
  m = Ok a -> bind m k = k a.
Proof. intros ->. reflexivity. Qed.

Ltac bind_inv H :=
  let a := fresh "a" in
  let Ha := fresh "Ha" in
  apply bind_Ok_inv in H; destruct H as (a & Ha & H).

(** ** The checks *)

Lemma check_content_type_Ok (file : UploadFile) (ct : string) :
  check_content_type file = Ok ct <->
  content_type file = Some ct /\
  (ct = "image/png" \/ ct = "image/jpeg" \/ ct = "image/jpg").
Proof.
  unfold check_content_type, str_in. split.
  - destruct (content_type file) as [s |]; [| discriminate].
    destruct (startswith s "image/"); simpl; [| discriminate].
    destruct (String.eqb_spec s "image/png") as [-> | _]; simpl.
    { intros [= <-]. auto. }
    destruct (String.eqb_spec s "image/jpeg") as [-> | _]; simpl.
    { intros [= <-]. auto. }
    destruct (String.eqb_spec s "image/jpg") as [-> | _]; simpl.
    { intros [= <-]. auto. }
    discriminate.
  - intros [-> [-> | [-> | ->]]]; reflexivity.
Qed.

Lemma check_division_Ok (y height : Z) :
  check_division y height = Ok tt <-> 0 < y < height.
Proof.
  unfold check_division.
  destruct (y <=? 0) eqn:E1; destruct (y >=? height) eqn:E2; simpl;
    split; intros H; try discriminate; try reflexivity; lia.
Qed.

Lemma check_division_Raise (y height : Z) :
  y <= 0 \/ height <= y ->
  check_division y height = Raise (HTTPException 400 msg_division).
Proof.
  unfold check_division. intros H.
  destruct (y <=? 0) eqn:E1; destruct (y >=? height) eqn:E2; simpl;
    try reflexivity; lia.
Qed.

(** ** The crops *)

Lemma crop_Ok_size (image img : Image) (x0 y0 x1 y1 : Z) :
  crop image (x0, y0, x1, y1) = Ok img ->
  size img = (x1 - x0, y1 - y0) /\ mode img = mode image.
Proof.
  unfold crop.
  destruct (x1 <? x0); [discriminate |].
  destruct (y1 <? y0); [discriminate |].
  destruct (load image) as [px | e]; simpl; [| discriminate].
  intros [= <-]. simpl. split; reflexivity.
Qed.

Lemma crop_Ok (image : Image) (px : Z -> Z -> pixel) (x0 y0 x1 y1 : Z) :
  load image = Ok px -> x0 <= x1 -> y0 <= y1 ->
  exists img, crop image (x0, y0, x1, y1) = Ok img.
Proof.
  intros Hpx Hx Hy. unfold crop.
  destruct (x1 <? x0) eqn:E1; [lia |].
  destruct (y1 <? y0) eqn:E2; [lia |].
  rewrite Hpx. simpl. eexists. reflexivity.
Qed.

(** The pixels of a crop inside the source are the source's. *)
Lemma crop_pixels (image img : Image) (px : Z -> Z -> pixel) (x0 y0 x1 y1 : Z) :
  crop image (x0, y0, x1, y1) = Ok img ->
  load image = Ok px ->
  exists px', load img = Ok px' /\
    forall x y, 0 <= x + x0 < fst (size image) ->
                0 <= y + y0 < snd (size image) ->
                px' x y = px (x + x0) (y + y0).
Proof.
  unfold crop. intros H Hpx.
  destruct (x1 <? x0); [discriminate |].
  destruct (y1 <? y0); [discriminate |].
  rewrite Hpx in H. simpl in H. injection H as <-. simpl.
  eexists. split; [reflexivity |].
  intros x y Hx Hy. simpl.
  destruct (0 <=? x + x0) eqn:A; [| lia].
  destruct (x + x0 <? fst (size image)) eqn:B; [| lia].
  destruct (0 <=? y + y0) eqn:C; [| lia].
  destruct (y + y0 <? snd (size image)) eqn:D; [| lia].
  reflexivity.
Qed.

(** ** The handler *)

Section HandlerFacts.

Context {runtime : Runtime}.

Lemma write_zip_Ok_inv now ct image_header image_body zip_file :
  write_zip now ct image_header image_body = Ok zip_file ->
  exists header_bytes body_bytes,
    Image_save image_header (format_name ct) = Ok header_bytes /\
    Image_save image_body (format_name ct) = Ok body_bytes /\
    filelist zip_file = two_entries now ct header_bytes body_bytes.
Proof.
  unfold write_zip. intros H.
  bind_inv H. bind_inv H. injection H as <-.
  exists a, a0. repeat split; assumption.
Qed.

Lemma crop_image_try_Ok_inv now file ct split_point split_percentage response :
  crop_image_try now file ct split_point split_percentage = Ok response ->
  exists image y image_header image_body header_bytes body_bytes,
    Image_open (read file) = Ok image /\
    division_y (snd (size image)) split_point split_percentage = Ok y /\
    0 < y < snd (size image) /\
    crop image (0, 0, fst (size image), y) = Ok image_header /\
    crop image (0, y, fst (size image), snd (size image)) = Ok image_body /\
    Image_save image_header (format_name ct) = Ok header_bytes /\
    Image_save image_body (format_name ct) = Ok body_bytes /\
    (exists raw,
       init_headers [("Content-Disposition",
                      "attachment; filename=" ++ zip_filename file)] = Ok raw) /\
    response = {| content := two_entries now ct header_bytes body_bytes;
                  media_type := "application/zip";
                  headers := [("Content-Disposition",
                               "attachment; filename=" ++ zip_filename file)] |}.
Proof.
  unfold crop_image_try. intros H.
  bind_inv H. rename a into image.
  destruct (size image) as [width height] eqn:Hsize.
  bind_inv H. rename a into y.
  bind_inv H. destruct a. apply check_division_Ok in Ha1.
  bind_inv H. rename a into image_header.
  bind_inv H. rename a into image_body.
  bind_inv H. rename a into zip_file.
  apply write_zip_Ok_inv in Ha4.
  destruct Ha4 as (header_bytes & body_bytes & Hh & Hb & Hfl).
  cbv zeta in H. bind_inv H. rename a into raw.
  injection H as <-. rewrite Hfl.
  exists image, y, image_header, image_body, header_bytes, body_bytes.
  rewrite Hsize. simpl.
  repeat split; try assumption; try lia.
  exists raw. assumption.
Qed.

Lemma crop_image_Ok_inv now file split_point split_percentage response :
  crop_image now file split_point split_percentage = Ok response ->
  exists ct image y image_header image_body header_bytes body_bytes,
    success now file split_point split_percentage response
      ct image y image_header image_body header_bytes body_bytes.
Proof.
  unfold crop_image. intros H.
  bind_inv H. rename a into ct.
  apply check_content_type_Ok in Ha. destruct Ha as [Hct Hacc].
  unfold try_except in H.
  destruct (crop_image_try now file ct split_point split_percentage)
    as [r | e] eqn:Htry;
    [| discriminate].
  injection H as <-.
  apply crop_image_try_Ok_inv in Htry.
  destruct Htry as (image & y & ih & ib & hb & bb & H1 & H2 & H3 & H4 & H5
                    & H6 & H7 & H8 & H9).
  exists ct, image, y, ih, ib, hb, bb. constructor; assumption.
Qed.


End HandlerFacts.

(** ** Floats *)

Lemma binary_round_aux_sign (s : bool) (m e : Z) (l : location) :
  match binary_round_aux prec emax s m e l with
  | S754_zero s' | S754_infinity s' | S754_finite s' _ _ => s' = s
  | S754_nan => True
  end.
Proof.
  unfold binary_round_aux.
  destruct (shr_fexp prec emax m e l) as [mrs' e'].
  destruct (shr_fexp prec emax _ e' loc_Exact) as [mrs'' e''].
  destruct (shr_m mrs''); [reflexivity | | exact I].
  destruct (e'' <=? emax - prec); reflexivity.
Qed.

Lemma float_of_int_not_negative (n : Z) (f : float) :
  0 <= n -> float_of_int n = Ok f -> not_negative f.
Proof.
  intros Hn. unfold float_of_int, binary_normalize.
  destruct n as [| p | p]; [| | lia].
  - intros [= <-]. exact I.
  - unfold binary_round.
    destruct (shl_align p 0 _) as [mz ez].
    pose proof (binary_round_aux_sign false (Zpos mz) ez loc_Exact) as Hs.
    destruct (binary_round_aux prec emax false (Zpos mz) ez loc_Exact)
      as [s | s | | s m e]; try discriminate; intros [= <-]; try exact I.
    subst s. exact I.
Qed.

(** What passes the two comparisons of line 52. *)
Lemma in_range_not_negative (q : float) :
  float_lt q float_0_0 = false -> float_gt q float_1_0 = false ->
  not_negative q /\ (forall s, q <> S754_infinity s).
Proof.
  unfold float_lt, float_gt, float_0_0, float_1_0, SFltb.
  destruct q as [s | s | | s m e]; simpl; intros H0 H1.
  - split; [exact I | discriminate].
  - destruct s; discriminate.
  - split; [exact I | discriminate].
  - destruct s; [discriminate |]. split; [exact I | discriminate].
Qed.

Lemma SFmul_not_negative (x y : float) :
  not_negative x -> not_negative y -> (forall s, x <> S754_infinity s) ->
  (forall s, y <> S754_infinity s) ->
  not_negative (SFmul prec emax x y).
Proof.
  intros Hx Hy Ix Iy.
  destruct x as [sx | sx | | sx mx ex]; destruct y as [sy | sy | | sy my ey];
    simpl; try exact I;
    try (exfalso; eapply Ix; reflexivity);
    try (exfalso; eapply Iy; reflexivity).
  destruct sx; [destruct Hx |]. destruct sy; [destruct Hy |]. simpl.
  pose proof (binary_round_aux_sign false (Zpos (mx * my)) (ex + ey) loc_Exact)
    as Hs.
  destruct (binary_round_aux prec emax false (Zpos (mx * my)) (ex + ey) loc_Exact)
    as [s | s | | s m e]; try exact I.
  subst s. exact I.
Qed.

(** On a float that is not negative, [int] is the floor. *)
Lemma int_of_float_floor (x : float) :
  not_negative x ->
  int_of_float x = match float_floor x with
                   | Some n => Ok n
                   | None => int_of_float x
                   end.
Proof.
  destruct x as [s | s | | s m e]; simpl; try reflexivity.
  destruct s; [intros [] | reflexivity].
Qed.

(** [float_floor] is the floor of [(-1)^s * m * 2^e]. *)
Lemma float_floor_spec (s : bool) (m : positive) (e n : Z) :
  float_floor (S754_finite s m e) = Some n ->
  (0 <= e -> n = cond_Zopp s (Zpos m) * 2 ^ e) /\
  (e <= 0 -> n * 2 ^ (- e) <= cond_Zopp s (Zpos m) < (n + 1) * 2 ^ (- e)).
Proof.
  simpl. intros [= <-]. split; intros He.
  - apply Z.shiftl_mul_pow2. exact He.
  - rewrite Z.shiftl_div_pow2 by exact He.
    assert (Hp : 0 < 2 ^ (- e)) by (apply Z.pow_pos_nonneg; lia).
    pose proof (Z.div_mod (cond_Zopp s (Zpos m)) (2 ^ (- e))) as Hd.
    pose proof (Z.mod_pos_bound (cond_Zopp s (Zpos m)) (2 ^ (- e)) Hp) as Hm.
    nia.
Qed.

(** The product of line 57 is not negative once the checks have passed. *)
Lemma product_not_negative (height : Z) (q product : float) :
  0 <= height ->
  float_lt q float_0_0 = false -> float_gt q float_1_0 = false ->
  int_mul_float height q = Ok product ->
  not_negative product.
Proof.
  intros Hh H0 H1. unfold int_mul_float. intros H.
  bind_inv H. injection H as <-.
  destruct (in_range_not_negative q H0 H1) as [Hq Hqi].
  apply SFmul_not_negative; try assumption.
  - eapply float_of_int_not_negative; eassumption.
  - intros s ->. unfold float_of_int in Ha.
    destruct (binary_normalize prec emax height 0 false); discriminate.
Qed.

(** ** The split row *)

Lemma division_y_split_point (height p : Z) (pct : option float) :
  division_y height (Some p) pct =
  if (p <? 0) || (p >=? height)
  then Raise (HTTPException 400 (msg_split_point height))
  else Ok p.
Proof. reflexivity. Qed.

Lemma division_y_in_range (height p : Z) (pct : option float) :
  0 <= p < height -> division_y height (Some p) pct = Ok p.
Proof.
  intros H. rewrite division_y_split_point.
  destruct (p <? 0) eqn:E1; destruct (p >=? height) eqn:E2; simpl;
    try reflexivity; lia.
Qed.

Lemma division_y_out_of_range (height p : Z) (pct : option float) :
  p < 0 \/ height <= p ->
  division_y height (Some p) pct =
  Raise (HTTPException 400 (msg_split_point height)).
Proof.
  intros H. rewrite division_y_split_point.
  destruct (p <? 0) eqn:E1; destruct (p >=? height) eqn:E2; simpl;
    try reflexivity; lia.
Qed.

Lemma division_y_percentage_out_of_range (height : Z) (q : float) :
  float_lt q float_0_0 = true \/ float_gt q float_1_0 = true ->
  division_y height None (Some q) =
  Raise (HTTPException 400 msg_split_percentage).
Proof.
  intros H. unfold division_y.
  destruct H as [-> | ->]; [reflexivity |].
  rewrite orb_true_r. reflexivity.
Qed.

(** The product of line 57 is the rounded one: three times the float
    nearest to 1/3 is 1.0, so the row is 1, although the exact product
    [3 * 6004799503160661 * 2^-54] lies below 1. *)
Example division_y_rounded_product :
  int_mul_float 3 float_third = Ok float_1_0 /\
  division_y 3 None (Some float_third) = Ok 1 /\
  Z.shiftl (3 * 6004799503160661) (-54) = 0.
Proof. repeat split; vm_compute; reflexivity. Qed.

(** ** Successful requests *)

Section Claims.

Context {runtime : Runtime}.

(** C1: when a request succeeds on an image of width [w] and height [h]
    with split row [y], the header is [w] by [y], the body is [w] by
    [h - y], the two heights add up to [h] and are at least 1 each; the
    archive carries the encodings of these two slices. *)
Theorem crop_image_slices now file split_point split_percentage response :
  crop_image now file split_point split_percentage = Ok response ->
  exists image y image_header image_body header_bytes body_bytes,
    Image_open (read file) = Ok image /\
    division_y (snd (size image)) split_point split_percentage = Ok y /\
    crop image (0, 0, fst (size image), y) = Ok image_header /\
    crop image (0, y, fst (size image), snd (size image)) = Ok image_body /\
    size image_header = (fst (size image), y) /\
    size image_body = (fst (size image), snd (size image) - y) /\
    snd (size image_header) + snd (size image_body) = snd (size image) /\
    1 <= snd (size image_header) /\
    1 <= snd (size image_body) /\
    fst (size image_header) = fst (size image) /\
    fst (size image_body) = fst (size image) /\
    (exists fmt, Image_save image_header fmt = Ok header_bytes /\
                 Image_save image_body fmt = Ok body_bytes) /\
    map zi_data (content response) = [header_bytes; body_bytes].
Proof.
  intros H. apply crop_image_Ok_inv in H.
  destruct H as (ct & image & y & ih & ib & hb & bb & S).
  destruct S as [Hct _ Hopen Hrow Hb Hh Hbd Hhb Hbb _ ->].
  exists image, y, ih, ib, hb, bb.
  destruct (crop_Ok_size _ _ _ _ _ _ Hh) as [Sh _].
  destruct (crop_Ok_size _ _ _ _ _ _ Hbd) as [Sb _].
  rewrite Z.sub_0_r in Sh, Sb. rewrite Z.sub_0_r in Sh.
  rewrite Sh, Sb. simpl.
  repeat split; try assumption; try reflexivity; try lia.
  exists (format_name ct). split; assumption.
Qed.

(** C6: a successful response is an archive of exactly two entries,
    [image_header.<ext>] then [image_body.<ext>], deflated, holding the
    header and the body saved in one format: PNG with [<ext> = png] for
    [image/png], JPEG with [<ext> = jpeg] for [image/jpeg] and
    [image/jpg]. *)
Theorem crop_image_archive now file split_point split_percentage response :
  crop_image now file split_point split_percentage = Ok response ->
  exists ct fmt ext image y image_header image_body header_bytes body_bytes,
    content_type file = Some ct /\
    (ct = "image/png" /\ fmt = "PNG" /\ ext = "png" \/
     (ct = "image/jpeg" \/ ct = "image/jpg") /\ fmt = "JPEG" /\ ext = "jpeg") /\
    Image_open (read file) = Ok image /\
    crop image (0, 0, fst (size image), y) = Ok image_header /\
    crop image (0, y, fst (size image), snd (size image)) = Ok image_body /\
    Image_save image_header fmt = Ok header_bytes /\
    Image_save image_body fmt = Ok body_bytes /\
    archive_contents (content response) =
      [("image_header." ++ ext, header_bytes);
       ("image_body." ++ ext, body_bytes)] /\
    map compress_type (content response) = [ZIP_DEFLATED; ZIP_DEFLATED] /\
    media_type response = "application/zip".
Proof.
  intros H. apply crop_image_Ok_inv in H.
  destruct H as (ct & image & y & ih & ib & hb & bb & S).
  destruct S as [Hct Hacc Hopen Hrow Hb Hh Hbd Hhb Hbb _ ->].
  exists ct, (format_name ct), (lower (format_name ct)), image, y, ih, ib, hb, bb.
  repeat split; try assumption.
  destruct Hacc as [-> | [-> | ->]]; [left | right | right];
    repeat split; auto.
Qed.



End Claims.

Lemma crop_image_slices_witness :
  exists response image image_header image_body,
    crop_image (runtime := raw_runtime) clock_a sample_png (Some 1) None
      = Ok response /\
    raw_open (read sample_png) = Ok image /\
    size image = (2, 3) /\
    crop image (0, 0, 2, 1) = Ok image_header /\
    crop image (0, 1, 2, 3) = Ok image_body /\
    size image_header = (2, 1) /\
    size image_body = (2, 2).
Proof.
  pose proof (fun response H =>
    crop_image_slices (runtime := raw_runtime) clock_a sample_png (Some 1) None
      response H) as T.
  edestruct T as (image & y & ih & ib & hb & bb & Hopen & Hrow & Hh & Hb
                  & Sh & Sb & _).
  { vm_compute. reflexivity. }
  simpl in Hopen. injection Hopen as <-.
  simpl in Hrow, Hh, Hb, Sh, Sb.
  rewrite division_y_in_range in Hrow
    by (split; [intros H; discriminate H | reflexivity]).
  injection Hrow as <-.
  eexists. eexists. exists ih, ib.
  split; [vm_compute; reflexivity |].
  split; [reflexivity |].
  split; [reflexivity |].
  split; [exact Hh |].
  split; [exact Hb |].
  split; [exact Sh | exact Sb].
Defined.

Lemma crop_image_archive_witness :
  exists response,
    crop_image (runtime := raw_runtime) clock_a sample_jpg None None
      = Ok response /\
    map zi_filename (content response)
      = ["image_header.jpeg"; "image_body.jpeg"].
Proof.
  pose proof (fun response H =>
    crop_image_archive (runtime := raw_runtime) clock_a sample_jpg None None
      response H) as T.
  edestruct T as (ct & fmt & ext & image & y & ih & ib & hb & bb & Hct & Hfmt
                  & _ & _ & _ & _ & _ & Hc & _).
  { vm_compute. reflexivity. }
  eexists. split; [vm_compute; reflexivity |].
  simpl in Hct. injection Hct as <-.
  destruct Hfmt as [[Hpng _] | [_ [_ ->]]]; [discriminate Hpng |].
  apply (f_equal (map fst)) in Hc.
  unfold archive_contents in Hc. rewrite map_map in Hc. exact Hc.
Defined.

(** ** Failing requests *)

Section Failures.

Context {runtime : Runtime}.

Lemma crop_image_accepted now file ct split_point split_percentage :
  check_content_type file = Ok ct ->
  crop_image now file split_point split_percentage =
  try_except (crop_image_try now file ct split_point split_percentage)
    (fun e => Raise (HTTPException 500 (msg_processing (str_exn e)))).
Proof. intros H. unfold crop_image. rewrite H. reflexivity. Qed.

(** Whatever the body of the [try] raises leaves the handler as a 500. *)
Lemma crop_image_try_Raise now file ct split_point split_percentage e :
  check_content_type file = Ok ct ->
  crop_image_try now file ct split_point split_percentage = Raise e ->
  crop_image now file split_point split_percentage =
    Raise (HTTPException 500 (msg_processing (str_exn e))) /\
  post_crop_image now file split_point split_percentage =
    (500, JsonDetail (msg_processing (str_exn e))).
Proof.
  intros Hct Htry.
  assert (H : crop_image now file split_point split_percentage =
              Raise (HTTPException 500 (msg_processing (str_exn e)))).
  { rewrite (crop_image_accepted _ _ _ _ _ Hct), Htry. reflexivity. }
  split; [exact H |]. unfold post_crop_image. rewrite H. reflexivity.
Qed.

Lemma crop_image_try_row now file ct split_point split_percentage image :
  Image_open (read file) = Ok image ->
  crop_image_try now file ct split_point split_percentage =
  y <- division_y (snd (size image)) split_point split_percentage ;;
  _ <- check_division y (snd (size image)) ;;
  image_header <- crop image (0, 0, fst (size image), y) ;;
  image_body <- crop image (0, y, fst (size image), snd (size image)) ;;
  zip_file <- write_zip now ct image_header image_body ;;
  _ <- init_headers [("Content-Disposition",
                      "attachment; filename=" ++ zip_filename file)] ;;
  Ok {| content := filelist zip_file;
        media_type := "application/zip";
        headers := [("Content-Disposition",
                     "attachment; filename=" ++ zip_filename file)] |}.
Proof.
  intros H. unfold crop_image_try. rewrite H. simpl.
  destruct (size image) as [width height]. reflexivity.
Qed.

(** C9: with [split_point] given, [split_percentage] has no part in the
    outcome: two requests that differ in it alone end alike, and the
    percentage's range error is never the one raised. *)
Theorem split_percentage_ignored now file (p : Z) (q1 q2 : option float) :
  crop_image now file (Some p) q1 = crop_image now file (Some p) q2 /\
  post_crop_image now file (Some p) q1 = post_crop_image now file (Some p) q2 /\
  (forall height,
     division_y height (Some p) q1 = division_y height (Some p) q2 /\
     division_y height (Some p) q1
       <> Raise (HTTPException 400 "El porcentaje debe estar entre 0.0 y 1.0")).
Proof.
  assert (H : crop_image now file (Some p) q1 = crop_image now file (Some p) q2).
  { unfold crop_image, crop_image_try.
    destruct (check_content_type file) as [ct | e]; simpl; [| reflexivity].
    destruct (Image_open (read file)) as [image | e]; simpl; [| reflexivity].
    destruct (size image) as [width height].
    rewrite !division_y_split_point. reflexivity. }
  split; [exact H |]. split.
  - unfold post_crop_image. rewrite H. reflexivity.
  - intros height. rewrite !division_y_split_point. split; [reflexivity |].
    destruct ((p <? 0) || (p >=? height)); [| discriminate].
    unfold msg_split_point. simpl. intros E. discriminate E.
Qed.

(** C10: on an image of height 1 no request succeeds: whatever row is
    resolved, the check on the division rejects it; the default row is
    [1 // 2 = 0]. *)
Theorem height_one_fails now file split_point split_percentage image :
  Image_open (read file) = Ok image ->
  snd (size image) = 1 ->
  (exists e, crop_image now file split_point split_percentage = Raise e) /\
  (forall y, division_y 1 split_point split_percentage = Ok y ->
     check_division y 1 = Raise (HTTPException 400 msg_division)) /\
  division_y 1 None None = Ok 0.
Proof.
  intros Hopen Hh. split; [| split].
  - destruct (crop_image now file split_point split_percentage)
      as [response | e] eqn:H; [| exists e; reflexivity].
    apply crop_image_Ok_inv in H.
    destruct H as (ct & image' & y & ih & ib & hb & bb & S).
    destruct S as [_ _ Hopen' _ Hb _ _ _ _ _ _].
    rewrite Hopen in Hopen'. injection Hopen' as <-. lia.
  - intros y _. apply check_division_Raise. lia.
  - reflexivity.
Qed.

End Failures.

Lemma height_one_fails_witness :
  snd (size (mkImage (2, 1) "L" (Ok (fun _ _ => 0)))) = 1 /\
  exists e,
    crop_image (runtime := raw_runtime) clock_a sample_row None
      (Some float_0_5) = Raise e.
Proof.
  split; [reflexivity |].
  pose proof (fun image H1 H2 =>
    proj1 (height_one_fails (runtime := raw_runtime) clock_a sample_row None
             (Some float_0_5) image H1 H2)) as T.
  eapply T.
  - simpl. reflexivity.
  - reflexivity.
Defined.

(** ** Range errors *)

Section RangeErrors.

Context {runtime : Runtime}.

(** What the range checks of lines 45 and 52 raise inside the [try], on a
    payload that opens: the 400 exception whose detail names the range. *)
Lemma range_check_raises now file ct split_point split_percentage image :
  Image_open (read file) = Ok image ->
  (forall p, split_point = Some p ->
     p < 0 \/ snd (size image) <= p ->
     crop_image_try now file ct split_point split_percentage =
       Raise (HTTPException 400
                ("El punto de división debe estar entre 0 y "
                 ++ str_int (snd (size image) - 1) ++ " píxeles")) /\
     exists e, crop_image now file split_point split_percentage = Raise e) /\
  (forall q, split_point = None -> split_percentage = Some q ->
     float_lt q float_0_0 = true \/ float_gt q float_1_0 = true ->
     crop_image_try now file ct split_point split_percentage =
       Raise (HTTPException 400 "El porcentaje debe estar entre 0.0 y 1.0") /\
     exists e, crop_image now file split_point split_percentage = Raise e).
Proof.
  intros Hopen.
  assert (Hfail : forall d,
    division_y (snd (size image)) split_point split_percentage
      = Raise (HTTPException 400 d) ->
    crop_image_try now file ct split_point split_percentage
      = Raise (HTTPException 400 d) /\
    exists e, crop_image now file split_point split_percentage = Raise e).
  { intros d Hd. split.
    - rewrite (crop_image_try_row _ _ _ _ _ _ Hopen), Hd. reflexivity.
    - unfold crop_image.
      destruct (check_content_type file) as [ct' | e]; simpl;
        [| exists e; reflexivity].
      rewrite (crop_image_try_row _ _ _ _ _ _ Hopen), Hd. simpl.
      eexists. reflexivity. }
  split.
  - intros p -> Hp. apply Hfail. apply division_y_out_of_range. exact Hp.
  - intros q -> -> Hq. apply Hfail.
    apply division_y_percentage_out_of_range. exact Hq.
Qed.

(** C3, on the code: on a payload that opens, with height [h], a given
    [split_point] outside [[0, h)], or with no [split_point] a given
    [split_percentage] below 0.0 or above 1.0, makes the range check raise
    its 400 exception, whose detail names the range; the handler's own
    [except Exception] catches it and the reply is a 500. *)
Theorem range_error_reply now file ct split_point split_percentage image :
  check_content_type file = Ok ct ->
  Image_open (read file) = Ok image ->
  (forall p, split_point = Some p ->
     p < 0 \/ snd (size image) <= p ->
     post_crop_image now file split_point split_percentage =
       (500, JsonDetail
               ("Error procesando la imagen: "
                ++ str_exn (HTTPException 400
                     ("El punto de división debe estar entre 0 y "
                      ++ str_int (snd (size image) - 1) ++ " píxeles"))))) /\
  (forall q, split_point = None -> split_percentage = Some q ->
     float_lt q float_0_0 = true \/ float_gt q float_1_0 = true ->
     post_crop_image now file split_point split_percentage =
       (500, JsonDetail
               ("Error procesando la imagen: "
                ++ str_exn (HTTPException 400
                     "El porcentaje debe estar entre 0.0 y 1.0")))).
Proof.
  intros Hct Hopen.
  destruct (range_check_raises now file ct split_point split_percentage image
              Hopen) as [Hp Hq].
  split.
  - intros p Hsp Hout. destruct (Hp p Hsp Hout) as [Htry _].
    apply (crop_image_try_Raise _ _ _ _ _ _ Hct Htry).
  - intros q Hsp Hpct Hout. destruct (Hq q Hsp Hpct Hout) as [Htry _].
    apply (crop_image_try_Raise _ _ _ _ _ _ Hct Htry).
Qed.

(** C4, on the code: a row that the check on the division rejects ends in
    a 500 reply, the 400 exception being caught by the handler's own
    [except Exception]. *)
Theorem degenerate_split_reply now file ct split_point split_percentage
  image y :
  check_content_type file = Ok ct ->
  Image_open (read file) = Ok image ->
  division_y (snd (size image)) split_point split_percentage = Ok y ->
  y <= 0 \/ snd (size image) <= y ->
  crop_image_try now file ct split_point split_percentage =
    Raise (HTTPException 400
             "El punto de división no permite crear dos imágenes válidas") /\
  post_crop_image now file split_point split_percentage =
    (500, JsonDetail
            ("Error procesando la imagen: "
             ++ str_exn (HTTPException 400
                  "El punto de división no permite crear dos imágenes válidas"))).
Proof.
  intros Hct Hopen Hrow Hy.
  assert (Htry : crop_image_try now file ct split_point split_percentage =
                 Raise (HTTPException 400 msg_division)).
  { rewrite (crop_image_try_row _ _ _ _ _ _ Hopen), Hrow. simpl.
    rewrite (check_division_Raise _ _ Hy). reflexivity. }
  split; [exact Htry |].
  apply (crop_image_try_Raise _ _ _ _ _ _ Hct Htry).
Qed.

(** C5, on the code: an upload whose part has no content type makes line
    29 raise outside the [try]; the framework replies 500. *)
Theorem missing_content_type_reply now name data split_point
  split_percentage :
  crop_image now (mkUploadFile name None data) split_point split_percentage =
    Raise (PyError "AttributeError"
             "'NoneType' object has no attribute 'startswith'") /\
  post_crop_image now (mkUploadFile name None data) split_point
    split_percentage = (500, PlainText "Internal Server Error").
Proof. split; reflexivity. Qed.

(** The declared content types that are strings: accepted exactly when
    one of the three; any other is answered 400 whatever the payload. *)
Theorem content_type_validation now file ct split_point split_percentage :
  content_type file = Some ct ->
  (check_content_type file = Ok ct <->
   ct = "image/png" \/ ct = "image/jpeg" \/ ct = "image/jpg") /\
  (~ (ct = "image/png" \/ ct = "image/jpeg" \/ ct = "image/jpg") ->
   exists detail,
     crop_image now file split_point split_percentage
       = Raise (HTTPException 400 detail) /\
     post_crop_image now file split_point split_percentage
       = (400, JsonDetail detail)).
Proof.
  intros Hct. split.
  - rewrite check_content_type_Ok. rewrite Hct. split.
    + intros [_ H]. exact H.
    + intros H. split; [reflexivity | exact H].
  - intros Hno.
    assert (H : exists detail, check_content_type file
                               = Raise (HTTPException 400 detail)).
    { destruct (check_content_type file) as [ct' | e] eqn:E.
      - apply check_content_type_Ok in E. destruct E as [E1 E2].
        rewrite Hct in E1. injection E1 as <-. contradiction.
      - revert E. unfold check_content_type. rewrite Hct.
        destruct (negb (startswith ct "image/")).
        + intros [= <-]. eexists. reflexivity.
        + destruct (negb (str_in ct ["image/png"; "image/jpeg"; "image/jpg"])).
          * intros [= <-]. eexists. reflexivity.
          * discriminate. }
    destruct H as [detail H]. exists detail.
    unfold post_crop_image, crop_image. rewrite H. simpl.
    split; reflexivity.
Qed.

(** C7, as the handler has it: a rejected content type ends the request
    before the payload is read; past that check the payload is opened
    first, and a payload that does not open ends the request in the decode
    failure, whatever [split_point] and [split_percentage] are. *)
Theorem decode_before_range_checks now file split_point split_percentage :
  (forall e, check_content_type file = Raise e ->
     crop_image now file split_point split_percentage = Raise e) /\
  (forall ct e, check_content_type file = Ok ct ->
     Image_open (read file) = Raise e ->
     crop_image_try now file ct split_point split_percentage = Raise e /\
     post_crop_image now file split_point split_percentage =
       (500, JsonDetail ("Error procesando la imagen: " ++ str_exn e))).
Proof.
  split.
  - intros e H. unfold crop_image. rewrite H. reflexivity.
  - intros ct e Hct Hopen.
    assert (Htry : crop_image_try now file ct split_point split_percentage
                   = Raise e).
    { unfold crop_image_try. rewrite Hopen. reflexivity. }
    split; [exact Htry |].
    apply (crop_image_try_Raise _ _ _ _ _ _ Hct Htry).
Qed.

End RangeErrors.

(** ** The handler on the sample uploads *)

Lemma range_error_reply_witness :
  post_crop_image (runtime := raw_runtime) clock_a sample_png (Some 3) None
  = (500, JsonDetail "Error procesando la imagen: 400: El punto de división debe estar entre 0 y 2 píxeles") /\
  post_crop_image (runtime := raw_runtime) clock_a sample_png None
    (Some float_7_5)
  = (500, JsonDetail "Error procesando la imagen: 400: El porcentaje debe estar entre 0.0 y 1.0").
Proof.
  assert (Hopen : exists image,
            raw_open (read sample_png) = Ok image /\ size image = (2, 3))
    by (eexists; split; reflexivity).
  destruct Hopen as [image [Hopen Hsize]].
  split.
  - pose proof (proj1 (range_error_reply (runtime := raw_runtime) clock_a
                         sample_png "image/png" (Some 3) None image eq_refl
                         Hopen) 3 eq_refl) as H.
    rewrite Hsize in H. apply H.
    right. simpl. intros E; discriminate E.
  - apply (proj2 (range_error_reply (runtime := raw_runtime) clock_a
                    sample_png "image/png" None (Some float_7_5) image eq_refl
                    Hopen) float_7_5 eq_refl eq_refl).
    right. reflexivity.
Defined.

Lemma degenerate_split_reply_witness :
  post_crop_image (runtime := raw_runtime) clock_a sample_png (Some 0) None
  = (500, JsonDetail "Error procesando la imagen: 400: El punto de división no permite crear dos imágenes válidas").
Proof.
  pose proof (fun image y H1 H2 H3 =>
    proj2 (degenerate_split_reply (runtime := raw_runtime) clock_a sample_png
             "image/png" (Some 0) None image y eq_refl H1 H2 H3)) as T.
  eapply T.
  - simpl. reflexivity.
  - reflexivity.
  - left. simpl. intros E; discriminate E.
Defined.

(** The two ends of the percentage on the 2x3 image: rows 0 and 3, both
    rejected by the check on the division, both answered 500. *)
Example percentage_ends :
  division_y 3 None (Some float_0_0) = Ok 0 /\
  division_y 3 None (Some float_1_0) = Ok 3 /\
  fst (post_crop_image (runtime := raw_runtime) clock_a sample_png None
         (Some float_0_0)) = 500 /\
  fst (post_crop_image (runtime := raw_runtime) clock_a sample_png None
         (Some float_1_0)) = 500.
Proof. repeat split; vm_compute; reflexivity. Qed.

(** C7 as stated fails: on a payload that does not open, an out-of-range
    [split_point] or [split_percentage] is answered with the decode failure,
    and no range error is raised. *)
Lemma undecodable_counterexample :
  (forall height,
     out_of_range height (Some (-1)) None /\
     out_of_range height None (Some float_7_5)) /\
  post_crop_image (runtime := raw_runtime) clock_a sample_garbage (Some (-1))
    None
    = (500, JsonDetail "Error procesando la imagen: cannot identify image file") /\
  post_crop_image (runtime := raw_runtime) clock_a sample_garbage None
    (Some float_7_5)
    = (500, JsonDetail "Error procesando la imagen: cannot identify image file") /\
  ~ (exists detail,
       crop_image_try (runtime := raw_runtime) clock_a sample_garbage
         "image/png" None (Some float_7_5)
       = Raise (HTTPException 400 detail)).
Proof.
  split; [| split; [| split]].
  - intros height. split.
    + left. exists (-1). split; [reflexivity | left; reflexivity].
    + right. exists float_7_5. split; [reflexivity | right; reflexivity].
  - vm_compute. reflexivity.
  - vm_compute. reflexivity.
  - intros [detail H]. vm_compute in H. discriminate H.
Qed.

Lemma decode_before_range_checks_witness :
  crop_image_try (runtime := raw_runtime) clock_a sample_garbage "image/png"
    None (Some float_7_5)
    = Raise (PyError "UnidentifiedImageError" "cannot identify image file") /\
  post_crop_image (runtime := raw_runtime) clock_a sample_garbage None
    (Some float_7_5)
    = (500, JsonDetail "Error procesando la imagen: cannot identify image file").
Proof.
  exact (proj2 (decode_before_range_checks (runtime := raw_runtime) clock_a
                  sample_garbage None (Some float_7_5))
           "image/png"
           (PyError "UnidentifiedImageError" "cannot identify image file")
           eq_refl eq_refl).
Defined.

(** The archives of two runs differ in their time stamps and in nothing
    else. *)
Example two_runs_time_stamps :
  crop_image (runtime := raw_runtime) clock_a sample_png None None
    <> crop_image (runtime := raw_runtime) clock_b sample_png None None /\
  outcome_contents
    (crop_image (runtime := raw_runtime) clock_a sample_png None None)
  = outcome_contents
      (crop_image (runtime := raw_runtime) clock_b sample_png None None).
Proof.
  split.
  - intros H. vm_compute in H. discriminate H.
  - vm_compute. reflexivity.
Qed.

(** ** Further properties of the handler *)

Lemma content_type_validation_witness :
  check_content_type sample_jpg = Ok "image/jpg" /\
  exists detail,
    post_crop_image (runtime := raw_runtime) clock_a
      (mkUploadFile (Some "notes.txt") (Some "text/plain") []) None None
    = (400, JsonDetail detail).
Proof.
  split.
  - apply (proj1 (content_type_validation (runtime := raw_runtime) clock_a
                    sample_jpg "image/jpg" None None eq_refl)).
    right. right. reflexivity.
  - destruct (proj2 (content_type_validation (runtime := raw_runtime) clock_a
                       (mkUploadFile (Some "notes.txt") (Some "text/plain") [])
                       "text/plain" None None eq_refl)) as [detail [_ H]].
    + intros [H | [H | H]]; discriminate H.
    + exists detail. exact H.
Defined.

(** The two crops of lines 71-74 exist for a loaded image and a row that
    passed the check, and they cover the source without overlap or gap:
    the pixel at row [r] is the header's when [r < y], and the body's at
    row [r - y] otherwise. *)
Theorem crop_slices_cover (image : Image) (px : Z -> Z -> pixel) (y : Z) :
  load image = Ok px ->
  0 <= fst (size image) ->
  0 < y < snd (size image) ->
  exists image_header image_body px_header px_body,
    crop image (0, 0, fst (size image), y) = Ok image_header /\
    crop image (0, y, fst (size image), snd (size image)) = Ok image_body /\
    load image_header = Ok px_header /\
    load image_body = Ok px_body /\
    size image_header = (fst (size image), y) /\
    size image_body = (fst (size image), snd (size image) - y) /\
    forall c r, 0 <= c < fst (size image) -> 0 <= r < snd (size image) ->
      px c r = if r <? y then px_header c r else px_body c (r - y).
Proof.
  intros Hpx Hw Hy.
  destruct (crop_Ok image px 0 0 (fst (size image)) y Hpx) as [ih Hh];
    [lia | lia |].
  destruct (crop_Ok image px 0 y (fst (size image)) (snd (size image)) Hpx)
    as [ib Hb]; [lia | lia |].
  destruct (crop_pixels _ _ _ _ _ _ _ Hh Hpx) as (pxh & Lh & Ph).
  destruct (crop_pixels _ _ _ _ _ _ _ Hb Hpx) as (pxb & Lb & Pb).
  destruct (crop_Ok_size _ _ _ _ _ _ Hh) as [Sh _].
  destruct (crop_Ok_size _ _ _ _ _ _ Hb) as [Sb _].
  rewrite Z.sub_0_r in Sh, Sb. rewrite Z.sub_0_r in Sh.
  exists ih, ib, pxh, pxb. repeat split; try assumption.
  intros c r Hc Hr. destruct (r <? y) eqn:E.
  - rewrite Ph by lia. f_equal; lia.
  - rewrite Pb by lia. f_equal; lia.
Qed.

Lemma crop_slices_cover_witness :
  exists image image_header image_body,
    raw_open (read sample_png) = Ok image /\
    crop image (0, 0, 2, 1) = Ok image_header /\
    crop image (0, 1, 2, 3) = Ok image_body /\
    size image_header = (2, 1) /\ size image_body = (2, 2).
Proof.
  eexists. 
  edestruct (crop_slices_cover
               (mkImage (2, 3) "L" (Ok (fun x y =>
                  Z_of_byte (nth (Z.to_nat (y * 2 + x))
                    [Byte.x01; Byte.x02; Byte.x03; Byte.x04; Byte.x05; Byte.x06]
                    Byte.x00)))) _ 1 eq_refl)
    as (ih & ib & pxh & pxb & Hh & Hb & _ & _ & Sh & Sb & _).
  - simpl. intros E; discriminate E.
  - simpl. split; reflexivity.
  - exists ih, ib. split; [reflexivity |].
    split; [exact Hh |]. split; [exact Hb |]. split; [exact Sh | exact Sb].
Defined.


Section Returns.

Context {runtime : Runtime}.


End Returns.


(** ** The attachment's name *)








(** ** The replies of the endpoint *)

Section Replies.

Context {runtime : Runtime}.

(** Every reply is one of five: the archive (200); a 500 carrying what the
    body of the [try] raised; one of the two 400s of the content-type
    checks; the framework's 500 when there is no content type.  A request
    whose content type is accepted is never answered 400. *)
Theorem reply_taxonomy now file split_point split_percentage :
  (exists ct response,
     check_content_type file = Ok ct /\
     post_crop_image now file split_point split_percentage
       = (200, Archive response)) \/
  (exists ct e,
     check_content_type file = Ok ct /\
     crop_image_try now file ct split_point split_percentage = Raise e /\
     post_crop_image now file split_point split_percentage
       = (500, JsonDetail ("Error procesando la imagen: " ++ str_exn e))) \/
  (exists ct,
     content_type file = Some ct /\ startswith ct "image/" = false /\
     post_crop_image now file split_point split_percentage
       = (400, JsonDetail "El archivo debe ser una imagen")) \/
  (exists ct,
     content_type file = Some ct /\ startswith ct "image/" = true /\
     str_in ct ["image/png"; "image/jpeg"; "image/jpg"] = false /\
     post_crop_image now file split_point split_percentage
       = (400, JsonDetail "Solo se permiten archivos PNG y JPG")) \/
  (content_type file = None /\
   post_crop_image now file split_point split_percentage
     = (500, PlainText "Internal Server Error")).
Proof.
  destruct (check_content_type file) as [ct | e0] eqn:Hct.
  - destruct (crop_image_try now file ct split_point split_percentage)
      as [response | e] eqn:Htry.
    + left. exists ct, response. split; [reflexivity |].
      unfold post_crop_image.
      rewrite (crop_image_accepted _ _ _ _ _ Hct), Htry. reflexivity.
    + right. left. exists ct, e. split; [reflexivity |].
      split; [exact Htry |].
      apply (crop_image_try_Raise _ _ _ _ _ _ Hct Htry).
  - right. right.
    unfold post_crop_image, crop_image. rewrite Hct. simpl.
    revert Hct. unfold check_content_type.
    destruct (content_type file) as [ct |].
    + destruct (startswith ct "image/") eqn:Hs; cbn [negb].
      * destruct (str_in ct ["image/png"; "image/jpeg"; "image/jpg"]) eqn:Hin;
          cbn [negb]; [discriminate |].
        intros [= <-]. right. left. exists ct.
        repeat split; try reflexivity; assumption.
      * intros [= <-]. left. exists ct.
        repeat split; try reflexivity; assumption.
    + intros [= <-]. right. right. split; reflexivity.
Qed.

(** A given [split_point] gets through the two checks of lines 45 and 63
    exactly when [0 < split_point < height]: the range check lets 0
    through, as its message says, and the next check rejects it.  A request
    that succeeds with it has a header of [split_point] rows. *)
Theorem split_point_effective_range now file (p : Z) (pct : option float) :
  (forall height,
     (exists y, division_y height (Some p) pct = Ok y /\
                check_division y height = Ok tt) <-> 0 < p < height) /\
  (forall height, 0 < height ->
     division_y height (Some 0) pct = Ok 0 /\
     check_division 0 height = Raise (HTTPException 400 msg_division)) /\
  (forall response,
     crop_image now file (Some p) pct = Ok response ->
     exists image image_header,
       Image_open (read file) = Ok image /\
       0 < p < snd (size image) /\
       crop image (0, 0, fst (size image), p) = Ok image_header /\
       size image_header = (fst (size image), p)).
Proof.
  split; [| split].
  - intros height. split.
    + intros (y & Hy & Hc). apply check_division_Ok in Hc.
      rewrite division_y_split_point in Hy.
      destruct ((p <? 0) || (p >=? height)); [discriminate |].
      injection Hy as <-. exact Hc.
    + intros Hp. exists p. split.
      * apply division_y_in_range. lia.
      * apply check_division_Ok. exact Hp.
  - intros height Hh. split.
    + apply division_y_in_range. lia.
    + apply check_division_Raise. lia.
  - intros response H. apply crop_image_Ok_inv in H.
    destruct H as (ct & image & y & ih & ib & hb & bb & S).
    destruct S as [_ _ Hopen Hrow Hb Hh _ _ _ _ _].
    rewrite division_y_split_point in Hrow.
    destruct ((p <? 0) || (p >=? snd (size image))); [discriminate |].
    injection Hrow as <-.
    exists image, ih. repeat split; try assumption; try lia.
    destruct (crop_Ok_size _ _ _ _ _ _ Hh) as [Sh _].
    rewrite !Z.sub_0_r in Sh. exact Sh.
Qed.

(** With neither parameter the row is [height // 2]; it passes the check
    exactly when [height >= 2], and a request that succeeds has a header of
    [height // 2] rows and a body that is as tall or one row taller. *)
Theorem default_split_halves now file :
  (forall height,
     division_y height None None = Ok (height / 2) /\
     (check_division (height / 2) height = Ok tt <-> 2 <= height)) /\
  (forall response,
     crop_image now file None None = Ok response ->
     exists image image_header image_body,
       Image_open (read file) = Ok image /\
       2 <= snd (size image) /\
       crop image (0, 0, fst (size image), snd (size image) / 2)
         = Ok image_header /\
       crop image (0, snd (size image) / 2, fst (size image), snd (size image))
         = Ok image_body /\
       snd (size image_header) = snd (size image) / 2 /\
       snd (size image_body) = snd (size image) - snd (size image) / 2 /\
       0 <= snd (size image_body) - snd (size image_header) <= 1).
Proof.
  split.
  - intros height. split; [reflexivity |].
    rewrite check_division_Ok.
    pose proof (Z.div_mod height 2) as Hd.
    pose proof (Z.mod_pos_bound height 2) as Hm. lia.
  - intros response H. apply crop_image_Ok_inv in H.
    destruct H as (ct & image & y & ih & ib & hb & bb & S).
    destruct S as [_ _ Hopen Hrow Hb Hh Hbd _ _ _ _].
    change (division_y (snd (size image)) None None)
      with (@Ok Z (snd (size image) / 2)) in Hrow.
    injection Hrow as <-.
    destruct (crop_Ok_size _ _ _ _ _ _ Hh) as [Sh _].
    destruct (crop_Ok_size _ _ _ _ _ _ Hbd) as [Sb _].
    exists image, ih, ib. rewrite Sh, Sb. simpl.
    pose proof (Z.div_mod (snd (size image)) 2) as Hd.
    pose proof (Z.mod_pos_bound (snd (size image)) 2) as Hm.
    repeat split; try assumption; lia.
Qed.

End Replies.

Lemma split_point_effective_range_witness :
  (exists y, division_y 3 (Some 2) None = Ok y /\ check_division y 3 = Ok tt) /\
  division_y 3 (Some 0) None = Ok 0 /\
  check_division 0 3 = Raise (HTTPException 400 msg_division).
Proof.
  pose proof (split_point_effective_range (runtime := raw_runtime) clock_a
                sample_png 2 None) as [H1 _].
  pose proof (split_point_effective_range (runtime := raw_runtime) clock_a
                sample_png 0 None) as [_ [H2 _]].
  split.
  - apply (proj2 (H1 3)). split; reflexivity.
  - apply (H2 3). reflexivity.
Defined.

Lemma default_split_halves_witness :
  check_division (3 / 2) 3 = Ok tt /\
  exists response image_header image_body,
    crop_image (runtime := raw_runtime) clock_a sample_png None None
      = Ok response /\
    snd (size image_header) = 1 /\ snd (size image_body) = 2.
Proof.
  pose proof (default_split_halves (runtime := raw_runtime) clock_a sample_png)
    as [H1 H2].
  split.
  - apply (proj2 (H1 3)). intros E; discriminate E.
  - edestruct H2 as (image & ih & ib & Hopen & _ & _ & _ & Sh & Sb & _).
    { vm_compute. reflexivity. }
    simpl in Hopen. injection Hopen as <-. simpl in Sh, Sb.
    eexists. exists ih, ib.
    split; [vm_compute; reflexivity |]. split; [exact Sh | exact Sb].
Defined.

(** ** Percentages at the edge *)

Lemma float_of_int_Raise (n : Z) (e : exn) :
  float_of_int n = Raise e ->
  e = PyError "OverflowError" "int too large to convert to float".
Proof.
  unfold float_of_int.
  destruct (binary_normalize prec emax n 0 false); try discriminate.
  intros [= <-]. reflexivity.
Qed.

Lemma float_of_int_not_infinity (n : Z) (s : bool) :
  float_of_int n <> Ok (S754_infinity s).
Proof.
  unfold float_of_int.
  destruct (binary_normalize prec emax n 0 false); discriminate.
Qed.

Lemma division_y_nan (height : Z) :
  division_y height None (Some S754_nan)
    = Raise (PyError "ValueError" "cannot convert float NaN to integer") \/
  division_y height None (Some S754_nan)
    = Raise (PyError "OverflowError" "int too large to convert to float").
Proof.
  unfold division_y. simpl. unfold int_mul_float.
  destruct (float_of_int height) as [f | e] eqn:Hf; simpl.
  - left. destruct f; reflexivity.
  - right. apply float_of_int_Raise in Hf. subst e. reflexivity.
Qed.

Lemma division_y_zero (height : Z) (s : bool) (y : Z) :
  division_y height None (Some (S754_zero s)) = Ok y -> y = 0.
Proof.
  unfold division_y. simpl. unfold int_mul_float.
  destruct (float_of_int height) as [f | e] eqn:Hf; simpl; [| discriminate].
  destruct f as [sf | sf | | sf m e]; simpl; try discriminate.
  - intros [= <-]. reflexivity.
  - intros [= <-]. reflexivity.
Qed.

Section EdgePercentages.

Context {runtime : Runtime}.

(** A [split_percentage] that is NaN gets past the comparisons of line 52
    (both are false on NaN) and makes line 57 raise: the request fails, and
    on an image that opens the reply is the 500 of a conversion error, not
    of the range check.  A [split_percentage] of 0.0 or -0.0 resolves row 0
    at best, so no such request succeeds. *)
Theorem percentage_edge_values now file :
  (forall ct image,
     check_content_type file = Ok ct ->
     Image_open (read file) = Ok image ->
     post_crop_image now file None (Some S754_nan)
       = (500, JsonDetail ("Error procesando la imagen: " ++ str_exn
            (PyError "ValueError" "cannot convert float NaN to integer"))) \/
     post_crop_image now file None (Some S754_nan)
       = (500, JsonDetail ("Error procesando la imagen: " ++ str_exn
            (PyError "OverflowError" "int too large to convert to float")))) /\
  (exists e, crop_image now file None (Some S754_nan) = Raise e) /\
  (forall s height y,
     division_y height None (Some (S754_zero s)) = Ok y -> y = 0) /\
  (forall s, exists e, crop_image now file None (Some (S754_zero s)) = Raise e).
Proof.
  split; [| split; [| split]].
  - intros ct image Hct Hopen.
    destruct (division_y_nan (snd (size image))) as [H | H]; [left | right];
      apply (crop_image_try_Raise _ _ _ _ _ _ Hct);
      rewrite (crop_image_try_row _ _ _ _ _ _ Hopen), H; reflexivity.
  - destruct (crop_image now file None (Some S754_nan)) as [r | e] eqn:H;
      [| exists e; reflexivity].
    apply crop_image_Ok_inv in H.
    destruct H as (ct & image & y & ih & ib & hb & bb & S).
    destruct S as [_ _ _ Hrow _ _ _ _ _ _ _].
    destruct (division_y_nan (snd (size image))) as [H | H];
      rewrite H in Hrow; discriminate Hrow.
  - intros s height y. apply division_y_zero.
  - intros s.
    destruct (crop_image now file None (Some (S754_zero s))) as [r | e] eqn:H;
      [| exists e; reflexivity].
    apply crop_image_Ok_inv in H.
    destruct H as (ct & image & y & ih & ib & hb & bb & S).
    destruct S as [_ _ _ Hrow Hb _ _ _ _ _ _].
    apply division_y_zero in Hrow. lia.
Qed.

(** Once the row has passed its checks nothing is answered by halves: if
    the pixel data does not load, or saving the header or the body raises,
    the reply is the 500 that carries that exception's message. *)
Theorem failure_is_reported now file ct split_point split_percentage image y :
  check_content_type file = Ok ct ->
  Image_open (read file) = Ok image ->
  division_y (snd (size image)) split_point split_percentage = Ok y ->
  0 < y < snd (size image) ->
  0 <= fst (size image) ->
  (forall e, load image = Raise e ->
     post_crop_image now file split_point split_percentage
       = (500, JsonDetail ("Error procesando la imagen: " ++ str_exn e))) /\
  (forall image_header image_body e,
     crop image (0, 0, fst (size image), y) = Ok image_header ->
     crop image (0, y, fst (size image), snd (size image)) = Ok image_body ->
     Image_save image_header (format_name ct) = Raise e ->
     post_crop_image now file split_point split_percentage
       = (500, JsonDetail ("Error procesando la imagen: " ++ str_exn e))) /\
  (forall image_header image_body header_bytes e,
     crop image (0, 0, fst (size image), y) = Ok image_header ->
     crop image (0, y, fst (size image), snd (size image)) = Ok image_body ->
     Image_save image_header (format_name ct) = Ok header_bytes ->
     Image_save image_body (format_name ct) = Raise e ->
     post_crop_image now file split_point split_percentage
       = (500, JsonDetail ("Error procesando la imagen: " ++ str_exn e))).
Proof.
  intros Hct Hopen Hrow Hy Hw.
  assert (Hd : check_division y (snd (size image)) = Ok tt)
    by (apply check_division_Ok; exact Hy).
  assert (Hstart : crop_image_try now file ct split_point split_percentage =
    image_header <- crop image (0, 0, fst (size image), y) ;;
    image_body <- crop image (0, y, fst (size image), snd (size image)) ;;
    zip_file <- write_zip now ct image_header image_body ;;
    _ <- init_headers [("Content-Disposition",
                        "attachment; filename=" ++ zip_filename file)] ;;
    Ok {| content := filelist zip_file;
          media_type := "application/zip";
          headers := [("Content-Disposition",
                       "attachment; filename=" ++ zip_filename file)] |}).
  { rewrite (crop_image_try_row _ _ _ _ _ _ Hopen).
    rewrite (bind_Ok _ _ _ Hrow); cbv beta.
    rewrite (bind_Ok _ _ _ Hd); cbv beta. reflexivity. }
  split; [| split].
  - intros e He. apply (crop_image_try_Raise _ _ _ _ _ _ Hct).
    rewrite Hstart. unfold crop.
    destruct (fst (size image) <? 0) eqn:E1; [lia |].
    destruct (y <? 0) eqn:E2; [lia |].
    rewrite He. reflexivity.
  - intros ih ib e Hh Hb Hs. apply (crop_image_try_Raise _ _ _ _ _ _ Hct).
    rewrite Hstart.
    rewrite (bind_Ok _ _ _ Hh); cbv beta.
    rewrite (bind_Ok _ _ _ Hb); cbv beta.
    unfold write_zip. rewrite Hs. reflexivity.
  - intros ih ib hb e Hh Hb Hs1 Hs2. apply (crop_image_try_Raise _ _ _ _ _ _ Hct).
    rewrite Hstart.
    rewrite (bind_Ok _ _ _ Hh); cbv beta.
    rewrite (bind_Ok _ _ _ Hb); cbv beta.
    unfold write_zip.
    rewrite (bind_Ok _ _ _ Hs1); cbv beta.
    rewrite Hs2. reflexivity.
Qed.

End EdgePercentages.

Lemma failure_is_reported_witness :
  post_crop_image (runtime := raw_runtime) clock_a sample_truncated (Some 1)
    None
  = (500, JsonDetail "Error procesando la imagen: image file is truncated").
Proof.
  pose proof (fun image y H1 H2 H3 H4 =>
    proj1 (failure_is_reported (runtime := raw_runtime) clock_a
             sample_truncated "image/png" (Some 1) None image y eq_refl
             H1 H2 H3 H4) (PyError "OSError" "image file is truncated")) as T.
  eapply T.
  - simpl. reflexivity.
  - reflexivity.
  - simpl. split; reflexivity.
  - simpl. intros E; discriminate E.
  - reflexivity.
Defined.

(** ** Exact products

    Heights below 2^53 convert to floats exactly, and the products with
    0.5 and 1.0 are exact too. *)

Lemma digits2_pos_bounds (p : positive) :
  2 ^ (Zpos (digits2_pos p) - 1) <= Zpos p < 2 ^ Zpos (digits2_pos p).
Proof.
  induction p as [p IH | p IH |]; cbn [digits2_pos].
  - rewrite Pos2Z.inj_succ.
    replace (Z.succ (Zpos (digits2_pos p)) - 1) with (Z.succ (Zpos (digits2_pos p) - 1)) by lia.
    rewrite !Z.pow_succ_r by lia. lia.
  - rewrite Pos2Z.inj_succ.
    replace (Z.succ (Zpos (digits2_pos p)) - 1) with (Z.succ (Zpos (digits2_pos p) - 1)) by lia.
    rewrite !Z.pow_succ_r by lia. lia.
  - simpl. lia.
Qed.

Lemma digits2_pos_le_53 (p : positive) :
  Zpos p < 2 ^ 53 -> Zpos (digits2_pos p) <= 53.
Proof.
  intros H. pose proof (digits2_pos_bounds p) as [Hl _].
  assert (Hlt : 2 ^ (Zpos (digits2_pos p) - 1) < 2 ^ 53) by lia.
  apply Z.pow_lt_mono_r_iff in Hlt; lia.
Qed.

Lemma digits2_pos_iter_xO (p k : positive) :
  digits2_pos (Pos.iter xO p k) = (digits2_pos p + k)%positive.
Proof.
  induction k as [| k IH] using Pos.peano_ind.
  - simpl. lia.
  - rewrite Pos.iter_succ. cbn [digits2_pos]. rewrite IH. lia.
Qed.

Lemma Zpos_iter_xO (p k : positive) :
  Zpos (Pos.iter xO p k) = Zpos p * 2 ^ Zpos k.
Proof.
  induction k as [| k IH] using Pos.peano_ind.
  - simpl. lia.
  - rewrite Pos.iter_succ, Pos2Z.inj_succ, Z.pow_succ_r by lia.
    rewrite Pos2Z.inj_xO, IH. lia.
Qed.

Lemma shr_fexp_exact (m : positive) (e : Z) :
  digits2_pos m = 53%positive -> -1074 <= e ->
  shr_fexp prec emax (Zpos m) e loc_Exact
  = (Build_shr_record (Zpos m) false false, e).
Proof.
  intros Hd He. unfold shr_fexp, Zdigits2, fexp, emin, prec, emax.
  rewrite Hd.
  replace (Z.max (53 + e - 53) (3 - 1024 - 53) - e) with 0 by lia.
  reflexivity.
Qed.

Lemma shr_52 (m : positive) :
  iter_pos shr_1 52 (Build_shr_record (Zpos (4503599627370496 * m)) false false)
  = Build_shr_record (Zpos m) false false.
Proof. vm_compute. reflexivity. Qed.

Lemma digits2_pos_shift_52 (m : positive) :
  Zpos (digits2_pos (4503599627370496 * m)) = Zpos (digits2_pos m) + 52.
Proof.
  change (4503599627370496 * m)%positive with (Pos.iter xO m 52).
  rewrite digits2_pos_iter_xO. lia.
Qed.

Lemma shr_fexp_shift (m : positive) (e : Z) :
  digits2_pos m = 53%positive -> -1074 <= e + 52 ->
  shr_fexp prec emax (Zpos (4503599627370496 * m)) e loc_Exact
  = (Build_shr_record (Zpos m) false false, e + 52).
Proof.
  intros Hd He. unfold shr_fexp, Zdigits2, fexp, emin, prec, emax.
  rewrite digits2_pos_shift_52, Hd.
  replace (Z.max (53 + 52 + e - 53) (3 - 1024 - 53) - e) with 52 by lia.
  unfold shr, shr_record_of_loc. rewrite shr_52. reflexivity.
Qed.

Lemma binary_round_aux_exact (s : bool) (m : positive) (e : Z) :
  digits2_pos m = 53%positive -> -1074 <= e <= 971 ->
  binary_round_aux prec emax s (Zpos m) e loc_Exact = S754_finite s m e.
Proof.
  intros Hd He. unfold binary_round_aux.
  rewrite (shr_fexp_exact m e Hd) by lia.
  cbn [shr_m loc_of_shr_record round_nearest_even].
  rewrite (shr_fexp_exact m e Hd) by lia.
  cbn [shr_m].
  replace (e <=? emax - prec) with true; [reflexivity |].
  symmetry. apply Z.leb_le. unfold emax, prec. lia.
Qed.

Lemma binary_round_aux_shift (s : bool) (m : positive) (e : Z) :
  digits2_pos m = 53%positive -> -1074 <= e + 52 <= 971 ->
  binary_round_aux prec emax s (Zpos (m * 4503599627370496)) e loc_Exact
  = S754_finite s m (e + 52).
Proof.
  intros Hd He. rewrite Pos.mul_comm. unfold binary_round_aux.
  rewrite (shr_fexp_shift m e Hd) by lia.
  cbn [shr_m loc_of_shr_record round_nearest_even].
  rewrite (shr_fexp_exact m (e + 52) Hd) by lia.
  cbn [shr_m].
  replace (e + 52 <=? emax - prec) with true; [reflexivity |].
  symmetry. apply Z.leb_le. unfold emax, prec. lia.
Qed.

(** An [int] below 2^53 converts to a float exactly. *)
Lemma float_of_int_exact (n : Z) :
  0 < n < 2 ^ 53 ->
  exists m e,
    float_of_int n = Ok (S754_finite false m e) /\
    digits2_pos m = 53%positive /\
    -52 <= e <= 0 /\
    Zpos m = n * 2 ^ (- e).
Proof.
  intros Hn. destruct n as [| p | p]; try lia.
  pose proof (digits2_pos_le_53 p (proj2 Hn)) as Hd.
  assert (H1 : 1 <= Zpos (digits2_pos p)) by lia.
  unfold float_of_int, binary_normalize, binary_round.
  unfold fexp at 1. unfold emin, prec at 1 2, emax at 1.
  replace (Z.max (Zpos (digits2_pos p) + 0 - 53) (3 - 1024 - 53))
    with (Zpos (digits2_pos p) - 53) by lia.
  unfold shl_align.
  destruct (Zpos (digits2_pos p) - 53 - 0) as [| k | k] eqn:Hk; try lia.
  - assert (Hp : digits2_pos p = 53%positive) by lia.
    rewrite (binary_round_aux_exact false p 0 Hp) by lia.
    exists p, 0. repeat split; try assumption; try lia.
  - assert (Hm : digits2_pos (Pos.iter xO p k) = 53%positive).
    { rewrite digits2_pos_iter_xO. lia. }
    rewrite (binary_round_aux_exact false _ _ Hm) by lia.
    exists (Pos.iter xO p k), (Zpos (digits2_pos p) - 53).
    repeat split; try assumption; try lia.
    rewrite Zpos_iter_xO. f_equal. f_equal. lia.
Qed.

Lemma SFmul_one (s : bool) (m : positive) (e : Z) :
  digits2_pos m = 53%positive -> -1074 <= e <= 971 ->
  SFmul prec emax (S754_finite s m e) float_1_0 = S754_finite s m e.
Proof.
  intros Hd He. unfold float_1_0. cbn [SFmul]. rewrite xorb_false_r.
  rewrite (binary_round_aux_shift s m (e + -52) Hd) by lia.
  f_equal. lia.
Qed.

Lemma SFmul_half (s : bool) (m : positive) (e : Z) :
  digits2_pos m = 53%positive -> -1073 <= e <= 972 ->
  SFmul prec emax (S754_finite s m e) float_0_5 = S754_finite s m (e - 1).
Proof.
  intros Hd He. unfold float_0_5. cbn [SFmul]. rewrite xorb_false_r.
  rewrite (binary_round_aux_shift s m (e + -53) Hd) by lia.
  f_equal. lia.
Qed.

(** The rows of three percentages, for heights below 2^53: 0.0 gives row
    0, 1.0 gives the height, and 0.5 gives [height // 2], the default. *)
Lemma division_y_exact (height : Z) :
  0 <= height < 2 ^ 53 ->
  division_y height None (Some float_0_0) = Ok 0 /\
  division_y height None (Some float_0_5) = Ok (height / 2) /\
  division_y height None (Some float_1_0) = Ok height.
Proof.
  intros Hh.
  assert (Hz : height = 0 \/ 0 < height < 2 ^ 53) by lia.
  destruct Hz as [-> | Hpos]; [repeat split; reflexivity |].
  destruct (float_of_int_exact height Hpos) as (m & e & Hf & Hd & He & Hm).
  unfold division_y, int_mul_float. rewrite Hf.
  cbn [bind]. split; [| split].
  - reflexivity.
  - change (float_lt float_0_5 float_0_0 || float_gt float_0_5 float_1_0)
      with false. cbv iota.
    rewrite (SFmul_half false m e Hd) by lia.
    cbn [bind int_of_float cond_Zopp].
    rewrite Z.shiftl_div_pow2 by lia. rewrite Hm.
    replace (- (e - 1)) with (Z.succ (- e)) by lia.
    rewrite Z.pow_succ_r by lia.
    f_equal. apply Z.div_mul_cancel_r; [lia | apply Z.pow_nonzero; lia].
  - change (float_lt float_1_0 float_0_0 || float_gt float_1_0 float_1_0)
      with false. cbv iota.
    rewrite (SFmul_one false m e Hd) by lia.
    cbn [bind int_of_float cond_Zopp].
    rewrite Z.shiftl_div_pow2 by lia. rewrite Hm.
    rewrite Z.div_mul by (apply Z.pow_nonzero; lia). reflexivity.
Qed.

Lemma iter_pos_invariant {A : Type} (P : A -> Prop) (f : A -> A) :
  (forall x, P x -> P (f x)) ->
  forall n x, P x -> P (iter_pos f n x).
Proof.
  intros Hf. induction n as [n IH | n IH |]; intros x Hx; cbn [iter_pos].
  - apply IH, IH, Hf, Hx.
  - apply IH, IH, Hx.
  - apply Hf, Hx.
Qed.

Lemma shr_1_bound (M : Z) (mrs : shr_record) :
  0 <= shr_m mrs <= M -> 0 <= shr_m (shr_1 mrs) <= M.
Proof.
  destruct mrs as [m r s]. cbn [shr_m]. intros H.
  destruct m as [| p | p]; [| destruct p | lia]; cbn [shr_1 shr_m]; lia.
Qed.

Lemma shr_bound (M : Z) (mrs : shr_record) (e n : Z) :
  0 <= shr_m mrs <= M ->
  0 <= shr_m (fst (shr mrs e n)) <= M /\
  snd (shr mrs e n) <= Z.max e (e + n).
Proof.
  intros H. unfold shr. destruct n as [| p | p]; cbn [fst snd].
  - split; [exact H | lia].
  - split; [| lia].
    apply (iter_pos_invariant (fun x => 0 <= shr_m x <= M)); [| exact H].
    intros x. apply shr_1_bound.
  - split; [exact H | lia].
Qed.

Lemma Zdigits2_bound (z k : Z) :
  0 <= z < 2 ^ k -> 0 <= k -> 0 <= Zdigits2 z <= k.
Proof.
  intros Hz Hk. destruct z as [| p | p]; cbn [Zdigits2]; [lia | | lia].
  pose proof (digits2_pos_bounds p) as [Hl _].
  assert (Hlt : 2 ^ (Zpos (digits2_pos p) - 1) < 2 ^ k) by lia.
  apply Z.pow_lt_mono_r_iff in Hlt; lia.
Qed.

Lemma shr_fexp_bound (m e k : Z) (l : location) :
  0 <= m < 2 ^ k -> 0 <= k ->
  0 <= shr_m (fst (shr_fexp prec emax m e l)) <= m /\
  snd (shr_fexp prec emax m e l) <= Z.max e (Z.max (k + e - 53) (-1074)).
Proof.
  intros Hm Hk. unfold shr_fexp.
  pose proof (Zdigits2_bound m k Hm Hk) as Hd.
  destruct (shr_bound m (shr_record_of_loc m l) e
              (fexp prec emax (Zdigits2 m + e) - e)) as [H1 H2].
  { destruct l as [| []]; cbn [shr_record_of_loc shr_m]; lia. }
  split; [exact H1 |].
  eapply Z.le_trans; [exact H2 |].
  unfold fexp, emin, prec, emax. lia.
Qed.

Lemma round_nearest_even_bound (m : Z) (l : location) :
  0 <= m -> 0 <= round_nearest_even m l <= m + 1.
Proof.
  intros H. destruct l as [| []]; cbn [round_nearest_even]; try lia.
  destruct (Z.even m); lia.
Qed.

(** Rounding a positive number below [2^106 * 2^ex], [ex <= 0], gives zero
    or a finite float. *)
Lemma binary_round_aux_finite (s : bool) (mx ex : Z) :
  0 <= mx < 2 ^ 106 -> ex <= 0 ->
  binary_round_aux prec emax s mx ex loc_Exact = S754_zero s \/
  exists m e, binary_round_aux prec emax s mx ex loc_Exact = S754_finite s m e.
Proof.
  intros Hm He. unfold binary_round_aux.
  destruct (shr_fexp_bound mx ex 106 loc_Exact Hm) as [Hm1 He1]; [lia |].
  destruct (shr_fexp prec emax mx ex loc_Exact) as [mrs' e']. cbn [fst snd] in *.
  pose proof (round_nearest_even_bound (shr_m mrs') (loc_of_shr_record mrs')
                (proj1 Hm1)) as Hr.
  set (mx1 := round_nearest_even (shr_m mrs') (loc_of_shr_record mrs')) in *.
  assert (Hm2 : 0 <= mx1 < 2 ^ 107).
  { change (2 ^ 107) with (2 * 2 ^ 106). lia. }
  destruct (shr_fexp_bound mx1 e' 107 loc_Exact Hm2) as [Hm3 He3]; [lia |].
  destruct (shr_fexp prec emax mx1 e' loc_Exact) as [mrs'' e''].
  cbn [fst snd] in *.
  destruct (shr_m mrs'') as [| m |]; [left; reflexivity | | lia].
  right. replace (e'' <=? emax - prec) with true.
  - exists m, e''. reflexivity.
  - symmetry. apply Z.leb_le. unfold emax, prec. lia.
Qed.

Lemma digits2_pos_lt (p : positive) (k : Z) :
  Zpos (digits2_pos p) <= k -> Zpos p < 2 ^ k.
Proof.
  intros H. pose proof (digits2_pos_bounds p) as [_ Hu].
  apply Z.lt_le_trans with (1 := Hu).
  apply Z.pow_le_mono_r; lia.
Qed.

(** What the check of line 52 lets through, NaN apart: a zero, or a
    positive float with exponent at most -52. *)
Lemma in_range_shape (q : float) :
  float_lt q float_0_0 = false -> float_gt q float_1_0 = false ->
  q = S754_nan \/ (exists s, q = S754_zero s) \/
  exists m e, q = S754_finite false m e /\ e <= -52.
Proof.
  unfold float_lt, float_gt, float_0_0, float_1_0, SFltb.
  destruct q as [s | s | | s m e]; cbn [SFcompare]; intros H0 H1.
  - right. left. exists s. reflexivity.
  - destruct s; discriminate.
  - left. reflexivity.
  - destruct s; [discriminate |]. right. right. exists m, e. split; [reflexivity |].
    destruct (Z.compare_spec (-52) e) as [E | E | E];
      [lia | discriminate H1 | lia].
Qed.

Lemma valid_binary_digits (s : bool) (m : positive) (e : Z) :
  valid_binary prec emax (S754_finite s m e) = true ->
  Zpos (digits2_pos m) <= 53.
Proof.
  cbn [valid_binary]. unfold bounded, canonical_mantissa, fexp, emin, prec, emax.
  intros H. apply andb_true_iff in H. destruct H as [H _].
  apply Z.eqb_eq in H. lia.
Qed.

(** A [split_percentage] that is a float of [[0.0, 1.0]] always resolves a
    row, and never a negative one, for heights below 2^53: lines 52-57
    raise nothing then. *)
Theorem percentage_resolves (height : Z) (q : float) :
  0 <= height < 2 ^ 53 ->
  valid_binary prec emax q = true ->
  q <> S754_nan ->
  float_lt q float_0_0 = false ->
  float_gt q float_1_0 = false ->
  exists y, division_y height None (Some q) = Ok y /\ 0 <= y.
Proof.
  intros Hh Hv Hnan H0 H1.
  unfold division_y. rewrite H0, H1. cbn [orb]. unfold int_mul_float.
  destruct (in_range_shape q H0 H1) as [-> | [[s ->] | (mq & eq & -> & Heq)]];
    [contradiction Hnan; reflexivity | |].
  - assert (Hz : height = 0 \/ 0 < height < 2 ^ 53) by lia.
    destruct Hz as [-> | Hpos]; [exists 0; split; [reflexivity | lia] |].
    destruct (float_of_int_exact height Hpos) as (m & e & Hf & _).
    rewrite Hf. exists 0. split; [reflexivity | lia].
  - assert (Hz : height = 0 \/ 0 < height < 2 ^ 53) by lia.
    destruct Hz as [-> | Hpos]; [exists 0; split; [reflexivity | lia] |].
    destruct (float_of_int_exact height Hpos) as (m & e & Hf & Hd & He & _).
    rewrite Hf. cbn [bind SFmul xorb].
    pose proof (valid_binary_digits _ _ _ Hv) as Hdq.
    assert (Hm : Zpos m < 2 ^ 53) by (apply digits2_pos_lt; lia).
    assert (Hmq : Zpos mq < 2 ^ 53) by (apply digits2_pos_lt; exact Hdq).
    assert (Hprod : 0 <= Zpos (m * mq) < 2 ^ 106).
    { rewrite Pos2Z.inj_mul. change (2 ^ 106) with (2 ^ 53 * 2 ^ 53).
      split; [lia |]. apply Z.mul_lt_mono_nonneg; lia. }
    destruct (binary_round_aux_finite false (Zpos (m * mq)) (e + eq) Hprod)
      as [-> | (m' & e' & ->)]; [lia | |].
    + exists 0. split; [reflexivity | lia].
    + cbn [int_of_float cond_Zopp]. eexists. split; [reflexivity |].
      apply Z.shiftl_nonneg. lia.
Qed.

Lemma percentage_resolves_witness :
  exists y, division_y 3 None (Some float_third) = Ok y /\ 0 <= y.
Proof.
  apply (percentage_resolves 3 float_third).
  - split; [intros E; discriminate E | reflexivity].
  - reflexivity.
  - discriminate.
  - reflexivity.
  - reflexivity.
Defined.

Section ExactRows.

Context {runtime : Runtime}.

(** On an image that opens with a height below 2^53, asking for 50% is
    asking for the default: the two requests end alike; and asking for
    100% resolves the row [height], which never succeeds.  The rows are 0
    for 0.0, [height // 2] for 0.5 and [height] for 1.0. *)
Theorem percentage_exact_rows now file :
  (forall height, 0 <= height < 2 ^ 53 ->
     division_y height None (Some float_0_0) = Ok 0 /\
     division_y height None (Some float_0_5) = division_y height None None /\
     division_y height None (Some float_1_0) = Ok height) /\
  (forall image,
     Image_open (read file) = Ok image ->
     0 <= snd (size image) < 2 ^ 53 ->
     crop_image now file None (Some float_0_5) = crop_image now file None None /\
     exists e, crop_image now file None (Some float_1_0) = Raise e).
Proof.
  split.
  - intros height Hh.
    destruct (division_y_exact height Hh) as (H0 & H5 & H1).
    repeat split; assumption.
  - intros image Hopen Hh.
    destruct (division_y_exact _ Hh) as (_ & H5 & H1). split.
    + unfold crop_image.
      destruct (check_content_type file) as [ct | e]; [| reflexivity].
      cbn [bind].
      rewrite !(crop_image_try_row _ _ _ _ _ _ Hopen), H5. reflexivity.
    + destruct (crop_image now file None (Some float_1_0)) as [r | e] eqn:H;
        [| exists e; reflexivity].
      apply crop_image_Ok_inv in H.
      destruct H as (ct & image' & y & ih & ib & hb & bb & S).
      destruct S as [_ _ Hopen' Hrow Hb _ _ _ _ _ _].
      rewrite Hopen in Hopen'. injection Hopen' as <-.
      rewrite H1 in Hrow. injection Hrow as <-. lia.
Qed.

End ExactRows.

Lemma percentage_exact_rows_witness :
  division_y 3 None (Some float_1_0) = Ok 3 /\
  crop_image (runtime := raw_runtime) clock_a sample_png None (Some float_0_5)
  = crop_image (runtime := raw_runtime) clock_a sample_png None None.
Proof.
  pose proof (percentage_exact_rows (runtime := raw_runtime) clock_a sample_png)
    as [H1 H2].
  assert (H3 : 0 <= 3 < 2 ^ 53)
    by (split; [intros E; discriminate E | reflexivity]).
  split.
  - apply (H1 3 H3).
  - refine (proj1 (H2 _ eq_refl H3)).
Defined.

Lemma percentage_edge_values_witness :
  post_crop_image (runtime := raw_runtime) clock_a sample_png None
    (Some S754_nan)
  = (500, JsonDetail
            "Error procesando la imagen: cannot convert float NaN to integer").
Proof.
  pose proof (percentage_edge_values (runtime := raw_runtime) clock_a sample_png)
    as [H _].
  destruct (H "image/png"
              (mkImage (2, 3) "L"
                 (Ok (fun x y =>
                    Z_of_byte (nth (Z.to_nat (y * 2 + x))
                      [Byte.x01; Byte.x02; Byte.x03; Byte.x04; Byte.x05; Byte.x06]
                      Byte.x00))))
              eq_refl eq_refl) as [E | E].
  - exact E.
  - vm_compute in E. discriminate E.
Defined.

(** ** Rounded products against exact ones

    The shifts of the rounding are divisions by powers of two; rounding a
    product below 2^53 moves its floor up by one at most. *)

Lemma pow2_pos (k : Z) : 0 <= k -> 0 < 2 ^ k.
Proof. intros H. apply Z.pow_pos_nonneg; lia. Qed.









(** [exact_floor] is the floor of [height * (-1)^s * m * 2^e]. *)
Lemma exact_floor_spec (height : Z) (s : bool) (m : positive) (e n : Z) :
  exact_floor height (S754_finite s m e) = Some n ->
  e <= 0 ->
  n * 2 ^ (- e) <= height * cond_Zopp s (Zpos m) < (n + 1) * 2 ^ (- e).
Proof.
  cbn [exact_floor]. intros [= <-] He.
  rewrite Z.shiftl_div_pow2 by exact He.
  assert (Hp : 0 < 2 ^ (- e)) by (apply pow2_pos; lia).
  pose proof (Z.div_mod (height * cond_Zopp s (Zpos m)) (2 ^ (- e))) as Hd.
  pose proof (Z.mod_pos_bound (height * cond_Zopp s (Zpos m)) (2 ^ (- e)) Hp)
    as Hm.
  nia.
Qed.







(** ** The response's headers *)

Section Headers.

Context {runtime : Runtime}.


End Headers.

